(** * vrnetlab / vjunosrouter: the launcher [docker/launch.py]

    A shallow embedding of [VJUNOSROUTER_vm]: its constructor, the
    [startup_config] step that assembles [juniper.conf], and the polling
    step [bootstrap_spin].  Python objects are records, the file system is
    a finite map from paths to nodes, and every call on a collaborator
    (the parent class [vrnetlab.VM], the telnet console, the logger,
    [subprocess]) is recorded in order in a list of calls.  What a call
    hands back (the tuple of [tn.expect], the clock, the exit status of
    [make-config.sh]) is an input; a call on a collaborator is taken to
    return, and the exceptions modelled are those that the launcher's own
    statements raise. *)

From Stdlib Require Import ZArith String Ascii List Lia Bool.
From Stdlib.Strings Require Import Byte.
From stdpp Require Import base option gmap strings.
Import ListNotations.

Local Open Scope string_scope.
Local Open Scope list_scope.
Local Open Scope Z_scope.

(** ** Python values *)

(** [bytes] objects; [str] objects are [string]s holding their UTF-8 text. *)
Definition bytes := list byte.

(** [b"..."] literals. *)
Definition bytes_of (s : string) : bytes := list_byte_of_string s.

(** ["\r"] and ["\n"]. *)
Definition CR : string := String "013" EmptyString.
Definition LF : ascii := "010"%char.

(** The exceptions that the embedded code can let escape. *)
Inductive exn :=
| UnboundLocalError (name : string)
| FileNotFoundError (path : string)
| IsADirectoryError (path : string)
| NotADirectoryError (path : string)
| CalledProcessError (returncode : Z) (cmd : list string)
| UnicodeDecodeError.

Inductive result (A : Type) :=
| Ok (a : A)
| Raise (e : exn).
Arguments Ok {A} a.
Arguments Raise {A} e.

(** Truthiness of an optional object ([None] is falsy, [re.Match] objects are
    always truthy). *)
Definition truthy {A} (o : option A) : bool :=
  match o with Some _ => true | None => false end.

(** ** [bytes.decode()]: strict UTF-8 *)

Definition in_range (lo hi : N) (x : byte) : bool :=
  ((lo <=? Byte.to_N x) && (Byte.to_N x <=? hi))%N.

Definition continuation : byte -> bool := in_range 128 191.

(** Well-formed UTF-8 byte sequences (no overlong forms, no surrogates,
    nothing above U+10FFFF), which is what the strict decoder accepts. *)
Fixpoint utf8_valid (l : bytes) : bool :=
  match l with
  | [] => true
  | b0 :: l1 =>
    if in_range 0 127 b0 then utf8_valid l1 else
    match l1 with
    | [] => false
    | b1 :: l2 =>
      if in_range 194 223 b0 then continuation b1 && utf8_valid l2 else
      match l2 with
      | [] => false
      | b2 :: l3 =>
        if in_range 224 224 b0 then in_range 160 191 b1 && continuation b2 && utf8_valid l3
        else if in_range 225 236 b0 then continuation b1 && continuation b2 && utf8_valid l3
        else if in_range 237 237 b0 then in_range 128 159 b1 && continuation b2 && utf8_valid l3
        else if in_range 238 239 b0 then continuation b1 && continuation b2 && utf8_valid l3
        else
        match l3 with
        | [] => false
        | b3 :: l4 =>
          if in_range 240 240 b0
          then in_range 144 191 b1 && continuation b2 && continuation b3 && utf8_valid l4
          else if in_range 241 243 b0
          then continuation b1 && continuation b2 && continuation b3 && utf8_valid l4
          else if in_range 244 244 b0
          then in_range 128 143 b1 && continuation b2 && continuation b3 && utf8_valid l4
          else false
        end
      end
    end
  end.

Definition decode (x : bytes) : result string :=
  if utf8_valid x then Ok (string_of_list_byte x) else Raise UnicodeDecodeError.

(** Reading in text mode with universal newlines: every ["\r\n"] and every
    other ["\r"] comes out as ["\n"]. *)
Fixpoint universal_newlines (s : string) : string :=
  match s with
  | EmptyString => EmptyString
  | String c rest =>
    if Ascii.eqb c "013"
    then String "010"
           (universal_newlines
              match rest with
              | String c' rest' => if Ascii.eqb c' "010" then rest' else rest
              | EmptyString => rest
              end)
    else String c (universal_newlines rest)
  end.

(** What [file.read()] makes of the bytes of a file opened with
    [open(path, "r")]: they are decoded as UTF-8, strictly, and the newlines
    are translated. *)
Definition decode_text (content : string) : result string :=
  if utf8_valid (list_byte_of_string content)
  then Ok (universal_newlines content)
  else Raise UnicodeDecodeError.

(** ** [str.replace(old, new)] for a non-empty [old]

    Left to right, non-overlapping: at a position where [old] starts, [new]
    is emitted and the scan resumes after the occurrence ([skip] counts the
    characters of the occurrence still to pass over). *)
Fixpoint replace_from (old new : string) (skip : nat) (s : string) : string :=
  match s with
  | EmptyString => EmptyString
  | String c s' =>
    match skip with
    | S k => replace_from old new k s'
    | O =>
      if String.prefix old s
      then new +:+ replace_from old new (Nat.pred (String.length old)) s'
      else String c (replace_from old new 0 s')
    end
  end.

Definition replace (old new s : string) : string := replace_from old new 0 s.

(** No occurrence of [old] starts inside [a] when [a] is followed by [rest]. *)
Fixpoint starts_nowhere (old a rest : string) : Prop :=
  match a with
  | EmptyString => True
  | String c a' => String.prefix old (String c a' +:+ rest) = false
                   /\ starts_nowhere old a' rest
  end.

(** ** [re.search(".qcow2$", e)]

    [.] is any character but a newline, [$] matches at the end of the string
    and just before a newline that ends the string; [search] tries every
    start position. *)
Fixpoint re_search_qcow2 (e : string) : bool :=
  match e with
  | EmptyString => false
  | String c rest =>
    (negb (Ascii.eqb c LF)
     && (String.eqb rest "qcow2" || String.eqb rest ("qcow2" +:+ String LF EmptyString)))
    || re_search_qcow2 rest
  end.

(** ** The world outside the object *)

(** A file-system entry: a regular file with its bytes (a string of 8-bit
    characters), or a directory. *)
Inductive node :=
| File (content : string)
| Dir.

(** Arguments of the logger: a plain message, or a ["... %s" % delta]
    message whose argument is a [datetime.timedelta] (in microseconds). *)
Inductive message :=
| Text (s : string)
| Text_timedelta (fmt : string) (delta : Z).

(** Calls on the collaborators, in the order the code makes them.  A
    [Subprocess_run] carries the status with which the child exited, which
    is not what [subprocess.run] hands back (see [reaped_returncode]). *)
Inductive call :=
| VM_init (username password disk_image : string) (ram : Z) (driveif cpu smp : string)
| VM_stop
| VM_start
| Wait_write (cmd : string) (wait : option string)
| Tn_expect (patterns : list bytes) (timeout : Z)
| Tn_close
| Datetime_now
| Logger_trace (m : message)
| Logger_info (m : message)
| Subprocess_run (args : list string) (shell check : bool) (exit_status : Z).

Record World := mkWorld {
  fs : gmap string node;
  calls : list call
}.

(** ** Computations that may raise and that act on the world *)

Definition Py (A : Type) : Type := World -> result A * World.

Definition ret {A} (a : A) : Py A := fun w => (Ok a, w).

Definition raise {A} (e : exn) : Py A := fun w => (Raise e, w).

Definition bind {A B} (m : Py A) (k : A -> Py B) : Py B :=
  fun w =>
    match m w with
    | (Ok a, w') => k a w'
    | (Raise e, w') => (Raise e, w')
    end.

Notation "'do' x <- m ; k" := (bind m (fun x => k))
  (at level 10, x name, m at level 100, k at level 200).
Notation "m ;; k" := (bind m (fun _ => k))
  (at level 100, k at level 200, right associativity, only parsing).

Definition lift {A} (r : result A) : Py A := fun w => (r, w).

Definition invoke (c : call) : Py unit :=
  fun w => (Ok tt, mkWorld (fs w) (calls w ++ [c])).

Definition get_fs : Py (gmap string node) := fun w => (Ok (fs w), w).

Definition put_fs (m : gmap string node) : Py unit :=
  fun w => (Ok tt, mkWorld m (calls w)).

(** ** Files *)

(** [os.path.exists(path)] *)
Definition os_path_exists (path : string) : Py bool :=
  do m <- get_fs; ret (truthy (m !! path)).

(** [with open(path, "r") as file: file.read()] *)
Definition read_text (path : string) : Py string :=
  do m <- get_fs;
  match m !! path with
  | None => raise (FileNotFoundError path)
  | Some Dir => raise (IsADirectoryError path)
  | Some (File c) => lift (decode_text c)
  end.

(** [with open(path, "w") as file: file.write(text)]: the text goes out in
    UTF-8, which is how a [str] is held here, with its ["\n"] as they are. *)
Definition write_text (path text : string) : Py unit :=
  do m <- get_fs;
  match m !! path with
  | Some Dir => raise (IsADirectoryError path)
  | _ => put_fs (<[path := File text]> m)
  end.

(** [os.rename(src, dst)]: an existing regular file at [dst] is replaced. *)
Definition os_rename (src dst : string) : Py unit :=
  do m <- get_fs;
  match m !! src, m !! dst with
  | None, _ => raise (FileNotFoundError src)
  | Some (File _), Some Dir => raise (IsADirectoryError dst)
  | Some Dir, Some (File _) => raise (NotADirectoryError dst)
  | Some n, _ => put_fs (<[dst := n]> (delete src m))
  end.

(** What [cat] prints for one operand and whether it could read it. *)
Definition cat_operand (m : gmap string node) (path : string) : string * bool :=
  match m !! path with
  | Some (File c) => (c, true)
  | _ => (EmptyString, false)
  end.

(** The shell command [cat f1 f2 >> out]: the shell opens [out] for
    appending (creating it when missing); when it cannot, it does not run
    [cat] and exits with 2.  [cat] prints the operands it can read and exits
    with 1 when it could not read one of them.  The result is the exit
    status of the shell. *)
Definition sh_cat_append (f1 f2 out : string) : Py Z :=
  do m <- get_fs;
  match m !! out with
  | Some Dir => ret 2
  | o =>
    let old := match o with Some (File c) => c | _ => EmptyString end in
    let (c1, ok1) := cat_operand m f1 in
    let (c2, ok2) := cat_operand m f2 in
    put_fs (<[out := File (old +:+ c1 +:+ c2)]> m);;
    ret (if ok1 && ok2 then 0 else 1)
  end.

(** ** Child processes *)

(** [handle_SIGCHLD], which the module installs for [SIGCHLD] when it is
    loaded, reaps every child that ends with [os.waitpid(-1, os.WNOHANG)].
    When [subprocess] then waits for its child there is none left, and it
    takes the return code to be 0, whatever the status the child exited
    with. *)
Definition reaped_returncode (exit_status : Z) : Z := 0.

(** [subprocess.run(args, shell=shell, check=check)] for a child that exits
    with [exit_status]: the result is the return code of the
    [CompletedProcess]. *)
Definition subprocess_run (args : list string) (shell check : bool) (exit_status : Z)
  : Py Z :=
  invoke (Subprocess_run args shell check exit_status);;
  let returncode := reaped_returncode exit_status in
  if check && negb (returncode =? 0)
  then raise (CalledProcessError returncode args)
  else ret returncode.

(** ** The object *)

(** The attributes of a [VJUNOSROUTER_vm] that the launcher reads or writes.
    [qemu_args] holds what the launcher appends to the list that the parent
    class prepares. *)
Record VM := mkVM {
  username : string;
  password : string;
  disk_image : string;
  hostname : string;
  qemu_args : list string;
  nic_type : string;
  num_nics : Z;
  smbios : list string;
  conn_mode : string;
  spins : Z;
  running : bool;
  start_time : Z
}.

Definition set_spins (n : Z) (self : VM) : VM :=
  mkVM (username self) (password self) (disk_image self) (hostname self)
       (qemu_args self) (nic_type self) (num_nics self) (smbios self)
       (conn_mode self) n (running self) (start_time self).

Definition set_running (r : bool) (self : VM) : VM :=
  mkVM (username self) (password self) (disk_image self) (hostname self)
       (qemu_args self) (nic_type self) (num_nics self) (smbios self)
       (conn_mode self) (spins self) r (start_time self).

Definition set_hostname (h : string) (self : VM) : VM :=
  mkVM (username self) (password self) (disk_image self) h
       (qemu_args self) (nic_type self) (num_nics self) (smbios self)
       (conn_mode self) (spins self) (running self) (start_time self).

Definition qemu_args_extend (l : list string) (self : VM) : VM :=
  mkVM (username self) (password self) (disk_image self) (hostname self)
       (qemu_args self ++ l) (nic_type self) (num_nics self) (smbios self)
       (conn_mode self) (spins self) (running self) (start_time self).

Definition set_nic_type (t : string) (self : VM) : VM :=
  mkVM (username self) (password self) (disk_image self) (hostname self)
       (qemu_args self) t (num_nics self) (smbios self)
       (conn_mode self) (spins self) (running self) (start_time self).

Definition set_num_nics (n : Z) (self : VM) : VM :=
  mkVM (username self) (password self) (disk_image self) (hostname self)
       (qemu_args self) (nic_type self) n (smbios self)
       (conn_mode self) (spins self) (running self) (start_time self).

Definition set_smbios (l : list string) (self : VM) : VM :=
  mkVM (username self) (password self) (disk_image self) (hostname self)
       (qemu_args self) (nic_type self) (num_nics self) l
       (conn_mode self) (spins self) (running self) (start_time self).

Definition set_conn_mode (c : string) (self : VM) : VM :=
  mkVM (username self) (password self) (disk_image self) (hostname self)
       (qemu_args self) (nic_type self) (num_nics self) (smbios self)
       c (spins self) (running self) (start_time self).

(** Modelled from the spec: [vrnetlab.VM.__init__] is not part of the
    sources.  It keeps the credentials for the console login and the disk
    image, and starts a session with [spins = 0] and [running = False]; the
    attributes that the launcher assigns afterwards start out empty. *)
Definition vrnetlab_VM_init (username password disk_image : string) : VM :=
  mkVM username password disk_image EmptyString [] EmptyString 0 [] EmptyString
       0 false 0.

(** What one call of [bootstrap_spin] gets from outside: the tuple that
    [self.tn.expect] returns and the clock. *)
Record Tick := mkTick {
  expect_result : Z * option bytes * bytes;
  now : Z
}.

(** What the constructor gets from outside: [os.listdir("/")] in the order
    it is returned, and [uuid.uuid4()] as a string. *)
Record Host := mkHost {
  listdir_root : list string;
  uuid4 : string
}.

Definition STARTUP_CONFIG_FILE : string := "/config/startup-config.cfg".

(** The loop over [os.listdir("/")]: [disk_image] is bound by every entry
    that matches, so the last one wins; [None] is the unbound variable. *)
Definition find_disk_image (entries : list string) : option string :=
  fold_left (fun disk_image e =>
               if re_search_qcow2 e then Some ("/" +:+ e) else disk_image)
            entries None.

(** The world [w] after the further calls [l]. *)
Definition after (w : World) (l : list call) : World :=
  mkWorld (fs w) (calls w ++ l).

(** The console reported the boot marker: [match] is set and [ridx == 0]. *)
Definition marker_matched (t : Tick) : bool :=
  let '(ridx, match_, _) := expect_result t in truthy match_ && (ridx =? 0)%Z.

(** The bytes that came with the tuple. *)
Definition output_of (t : Tick) : bytes :=
  let '(_, _, res) := expect_result t in res.

(** The calls of a login: what [bootstrap_spin] does once the marker is seen. *)
Definition login_calls (t : Tick) (self : VM) : list call :=
  [ Tn_expect [bytes_of "FreeBSD/amd64"] 1;
    Logger_info (Text "VM started");
    Wait_write CR None;
    Wait_write "admin" (Some "login:");
    Wait_write (password self) (Some "Password:");
    Wait_write CR None;
    Logger_info (Text "Login completed");
    Tn_close;
    Datetime_now;
    Logger_info (Text_timedelta "Startup complete in: %s" (now t - start_time self)) ].

Section VJUNOSROUTER_vm.

(** [vrnetlab.VM.stop] and [vrnetlab.VM.start], which are not part of the
    sources, as they act on the attributes. *)
Variables vm_stop vm_start : VM -> VM.

(** Modelled from the spec: [make-config.sh] is not part of the sources.
    It is given the configuration text path and the image path, and yields
    an exit status and possibly the image it built; it writes nothing
    else. *)
Variable make_config_sh : option node -> Z * option string.

(** [subprocess.run(["./make-config.sh", "juniper.conf", "config.img"], check=True)] *)
Definition run_make_config : Py unit :=
  do m <- get_fs;
  let (status, img) := make_config_sh (m !! "juniper.conf") in
  match img with
  | Some i => put_fs (<["config.img" := File i]> m)
  | None => ret tt
  end;;
  subprocess_run ["./make-config.sh"; "juniper.conf"; "config.img"] false true status;;
  ret tt.

Definition startup_config : Py unit :=
  do found <- os_path_exists STARTUP_CONFIG_FILE;
  (if negb found then
     invoke (Logger_trace (Text ("Startup config file " +:+ STARTUP_CONFIG_FILE +:+ " is not found")));;
     os_rename "init.conf" "juniper.conf"
   else
     invoke (Logger_trace (Text ("Startup config file " +:+ STARTUP_CONFIG_FILE
                                 +:+ " found, appending initial configuration")));;
     let append_cfg := "cat init.conf " +:+ STARTUP_CONFIG_FILE +:+ " >> juniper.conf" in
     do status <- sh_cat_append "init.conf" STARTUP_CONFIG_FILE "juniper.conf";
     subprocess_run [append_cfg] true false status;;
     ret tt);;
  run_make_config.

Definition __init__ (host : Host) (hostname username password conn_mode : string) : Py VM :=
  do disk_image <-
    match find_disk_image (listdir_root host) with
    | Some d => ret d
    | None => raise (UnboundLocalError "disk_image")
    end;
  invoke (VM_init username password disk_image 5120 "virtio" "host,vmx=on"
                  "4,sockets=1,cores=4,threads=1");;
  let self := vrnetlab_VM_init username password disk_image in
  let self := set_hostname hostname self in
  do cfg <- read_text "init.conf";
  let new_cfg := replace "{HOSTNAME}" hostname cfg in
  write_text "init.conf" new_cfg;;
  startup_config;;
  let self := qemu_args_extend ["-overcommit"; "mem-lock=off"] self in
  let self := qemu_args_extend ["-uuid"; uuid4 host] self in
  let self := qemu_args_extend ["-device"; "qemu-xhci,id=usb,bus=pci.0,addr=0x1.0x2"] self in
  let self := qemu_args_extend
                ["-drive"; "file=/config.img,format=raw,if=none,id=config_disk";
                 "-device";
                 "usb-storage,drive=config_disk,id=usb-disk0,removable=off,write-cache=on"]
                self in
  let self := qemu_args_extend ["-no-user-config"; "-nodefaults"; "-boot"; "strict=on"] self in
  let self := set_nic_type "virtio-net-pci" self in
  let self := set_num_nics 11 self in
  let self := set_smbios ["type=1,product=VM-VMX,family=lab"] self in
  let self := set_conn_mode conn_mode self in
  ret self.

(** [self.wait_write(cmd, wait)], a method of the parent class. *)
Definition wait_write (cmd : string) (wait : option string) : Py unit :=
  invoke (Wait_write cmd wait).

(** One call of [bootstrap_spin] on the object [self]; the result is the
    object as the call leaves it. *)
Definition bootstrap_spin (t : Tick) (self : VM) : Py VM :=
  if (300 <? spins self)%Z then
    (* too many spins with no result -> give up *)
    invoke VM_stop;;
    let self := vm_stop self in
    invoke VM_start;;
    let self := vm_start self in
    ret self
  else
    invoke (Tn_expect [bytes_of "FreeBSD/amd64"] 1);;
    let '(ridx, match_, res) := expect_result t in
    if truthy match_ && (ridx =? 0)%Z then
      invoke (Logger_info (Text "VM started"));;
      wait_write CR None;;
      wait_write "admin" (Some "login:");;
      wait_write (password self) (Some "Password:");;
      wait_write CR None;;
      invoke (Logger_info (Text "Login completed"));;
      invoke Tn_close;;
      invoke Datetime_now;;
      let startup_time := now t - start_time self in
      invoke (Logger_info (Text_timedelta "Startup complete in: %s" startup_time));;
      ret (set_running true self)
    else
      do self <-
        match res with
        | [] => ret self
        | _ :: _ =>
          do output <- lift (decode res);
          invoke (Logger_trace (Text ("OUTPUT: " +:+ output)));;
          ret (set_spins 0 self)
        end;
      ret (set_spins (spins self + 1) self).

(** The scheduler calling [bootstrap_spin] once per tick; an exception
    that escapes a call ends the run. *)
Fixpoint run_ticks (ticks : list Tick) (self : VM) : Py VM :=
  match ticks with
  | [] => ret self
  | t :: rest => do self <- bootstrap_spin t self; run_ticks rest self
  end.

(** The outcome of a call, by the way taken through the method. *)
Inductive spin_outcome (t : Tick) (self : VM) (w : World) : result VM * World -> Prop :=
| Spin_timeout :
    300 < spins self ->
    spin_outcome t self w (Ok (vm_start (vm_stop self)), after w [VM_stop; VM_start])
| Spin_login :
    spins self <= 300 -> marker_matched t = true ->
    spin_outcome t self w (Ok (set_running true self), after w (login_calls t self))
| Spin_quiet :
    spins self <= 300 -> marker_matched t = false -> output_of t = [] ->
    spin_outcome t self w
      (Ok (set_spins (spins self + 1) self),
       after w [Tn_expect [bytes_of "FreeBSD/amd64"] 1])
| Spin_output :
    spins self <= 300 -> marker_matched t = false ->
    output_of t <> [] -> utf8_valid (output_of t) = true ->
    spin_outcome t self w
      (Ok (set_spins 1 self),
       after w [Tn_expect [bytes_of "FreeBSD/amd64"] 1;
                Logger_trace (Text ("OUTPUT: " +:+ string_of_list_byte (output_of t)))])
| Spin_garbled :
    spins self <= 300 -> marker_matched t = false ->
    output_of t <> [] -> utf8_valid (output_of t) = false ->
    spin_outcome t self w
      (Raise UnicodeDecodeError, after w [Tn_expect [bytes_of "FreeBSD/amd64"] 1]).

(** The file system after [make-config.sh] has run on it. *)
Definition with_image (m : gmap string node) : gmap string node :=
  match (make_config_sh (m !! "juniper.conf")).2 with
  | Some i => <["config.img" := File i]> m
  | None => m
  end.

End VJUNOSROUTER_vm.

(** ** Reading the list of calls *)

Definition is_wait_write (c : call) : bool :=
  match c with Wait_write _ _ => true | _ => false end.

Definition is_tn_close (c : call) : bool :=
  match c with Tn_close => true | _ => false end.

Definition is_vm_stop (c : call) : bool :=
  match c with VM_stop => true | _ => false end.

(** The command sent in answer to the prompt [prompt], if any. *)
Fixpoint written_at (prompt : string) (l : list call) : option string :=
  match l with
  | [] => None
  | Wait_write cmd (Some w) :: rest =>
    if String.eqb w prompt then Some cmd else written_at prompt rest
  | _ :: rest => written_at prompt rest
  end.

(** The calls made between the world [w] and a later world [w']. *)
Definition since (w w' : World) : list call :=
  drop (length (calls w)) (calls w').

(** A tick whose read brings output that is not the marker and that decodes. *)
Definition chatty (t : Tick) : bool :=
  negb (marker_matched t)
  && match output_of t with [] => false | _ :: _ => true end
  && utf8_valid (output_of t).

(** The call that hands the disk image to the parent class. *)
Definition parent_init (u p d : string) : call :=
  VM_init u p d 5120 "virtio" "host,vmx=on" "4,sockets=1,cores=4,threads=1".

(** The object as the constructor leaves it. *)
Definition constructed (host : Host) (h u p cm d : string) : VM :=
  mkVM u p d h
       ["-overcommit"; "mem-lock=off"; "-uuid"; uuid4 host; "-device";
        "qemu-xhci,id=usb,bus=pci.0,addr=0x1.0x2"; "-drive";
        "file=/config.img,format=raw,if=none,id=config_disk"; "-device";
        "usb-storage,drive=config_disk,id=usb-disk0,removable=off,write-cache=on";
        "-no-user-config"; "-nodefaults"; "-boot"; "strict=on"]
       "virtio-net-pci" 11 ["type=1,product=VM-VMX,family=lab"] cm 0 false 0.

(** A computation only ever adds calls to the list. *)
Definition grows {A} (m : Py A) : Prop :=
  forall w, exists l, calls (m w).2 = calls w ++ l.

(** The text that [>>] finds in the output file. *)
Definition text_of (o : option node) : string :=
  match o with Some (File c) => c | _ => EmptyString end.

Definition make_config_call : call :=
  Subprocess_run ["./make-config.sh"; "juniper.conf"; "config.img"] false true 0.

(** * Concrete runs *)

(** A parent class whose [stop] clears [running] and whose [start] begins a
    session with no spins, and a [make-config.sh] that accepts every
    configuration. *)
Definition stop_clears : VM -> VM := set_running false.
Definition start_fresh : VM -> VM := set_spins 0.
Definition builder_ok : option node -> Z * option string :=
  fun _ => (0, Some "config-disk").

Definition a_host : Host :=
  mkHost ["bin"; "vJunos-router-23.2R1.15.qcow2"; "launch.py"]
         "6f1c2a9e-5d0b-4c3e-9a57-1f2e3d4c5b6a".

Definition a_vm : VM := vrnetlab_VM_init "vrnetlab" "VR-netlab9" "/vJunos-router-23.2R1.15.qcow2".

Definition no_calls (m : gmap string node) : World := mkWorld m [].

(** Files of a fresh container, with and without a user configuration. *)
Definition fresh_files : gmap string node :=
  {[ "init.conf" := File "hostname {HOSTNAME};" ]}.

Definition files_with_user_config : gmap string node :=
  <[ STARTUP_CONFIG_FILE := File "system { services { ssh; } }" ]> fresh_files.


(** The user configuration path is a directory. *)
Definition files_with_config_dir : gmap string node :=
  <[ STARTUP_CONFIG_FILE := Dir ]> fresh_files.

Definition tick_marker : Tick :=
  mkTick (0, Some (bytes_of "FreeBSD/amd64"), bytes_of "FreeBSD/amd64") 42.
Definition tick_output : Tick := mkTick (-1, None, bytes_of "Booting [/kernel]...") 7.
Definition tick_silent : Tick := mkTick (-1, None, []) 7.

Definition first_run : result VM * World :=
  __init__ builder_ok a_host "vr-edge1" "vrnetlab" "VR-netlab9" "tc" (no_calls fresh_files).


(** * Further vocabulary *)

(** The read that every call of [bootstrap_spin] below the spin limit makes. *)
Definition expect_call : call := Tn_expect [bytes_of "FreeBSD/amd64"] 1.

(** A tick whose read brings neither the marker nor any output. *)
Definition silent (t : Tick) : bool :=
  negb (marker_matched t)
  && match output_of t with [] => true | _ :: _ => false end.

(** A byte below 128. *)
Definition is_ascii (x : byte) : bool := in_range 0 127 x.

(** The text that [startup_config] leaves in [juniper.conf], given the files
    it finds and the substituted baseline [base]: the baseline itself when
    there is no user configuration, and otherwise what [>>] finds in
    [juniper.conf], then the baseline, then what [cat] can read of the user
    configuration. *)
Definition artifact_of (m : gmap string node) (base : string) : string :=
  match m !! STARTUP_CONFIG_FILE with
  | None => base
  | Some n => text_of (m !! "juniper.conf") +:+ base +:+ text_of (Some n)
  end.

(** A computation that never raises [UnboundLocalError]. *)
Definition never_unbound {A} (m : Py A) : Prop :=
  forall w name w', m w <> (Raise (UnboundLocalError name), w').

(** [sep.join(parts)] *)
Fixpoint join (sep : string) (parts : list string) : string :=
  match parts with
  | [] => EmptyString
  | p :: rest =>
    match rest with
    | [] => p
    | _ :: _ => p +:+ sep +:+ join sep rest
    end
  end.

(** [parts] are the pieces between the occurrences of [old] in
    [join old parts]: no occurrence of [old] starts inside a piece. *)
Fixpoint pieces_between (old : string) (parts : list string) : Prop :=
  match parts with
  | [] => True
  | p :: rest =>
    match rest with
    | [] => starts_nowhere old p EmptyString
    | _ :: _ => starts_nowhere old p (old +:+ join old rest) /\ pieces_between old rest
    end
  end.

(** ** Logging *)

Definition TRACE_LEVEL_NUM : Z := 9.

(** [logging.DEBUG]. *)
Definition DEBUG : Z := 10.

(** The root logger: its level, and [logging.disable]'s level, which its
    manager holds. *)
Record Logger := mkLogger {
  level : Z;
  manager_disable : Z
}.

(** [Logger.isEnabledFor(level)] of the standard library, on the root
    logger, whose effective level is its own. *)
Definition isEnabledFor (self : Logger) (lvl : Z) : bool :=
  if lvl <=? manager_disable self then false else level self <=? lvl.

(** [Logger.setLevel(level)] *)
Definition setLevel (lvl : Z) (self : Logger) : Logger :=
  mkLogger lvl (manager_disable self).

(** [trace(self, message)], installed as [logging.Logger.trace]: the records
    that it hands to [self._log], each with its level. *)
Definition trace (self : Logger) (m : message) : list (Z * message) :=
  if isEnabledFor self TRACE_LEVEL_NUM then [(TRACE_LEVEL_NUM, m)] else [].

(** The root logger as [__main__] sets it up, by the [--trace] flag. *)
Definition main_logger (args_trace : bool) (root : Logger) : Logger :=
  let logger := setLevel DEBUG root in
  if args_trace then setLevel 1 logger else logger.

(** ** More concrete runs *)

(** A [make-config.sh] that rejects every configuration with status 2. *)
Definition builder_fails : option node -> Z * option string :=
  fun _ => (2, None).

(** No template; a directory in the place of [juniper.conf]. *)
Definition files_without_template : gmap string node := ∅.



(** Output that is not UTF-8. *)
Definition tick_garbled : Tick := mkTick (-1, None, [xff; xfe]) 7.

(** The root logger as the standard library creates it: [WARNING], nothing
    disabled. *)
Definition root_logger : Logger := mkLogger 30 0.

(** * Properties of [bootstrap_spin] *)

Section Bootstrap_spin.

Variables vm_stop vm_start : VM -> VM.

Local Abbreviation spin := (bootstrap_spin vm_stop vm_start).
Local Abbreviation run := (run_ticks vm_stop vm_start).

Lemma since_after w l : since w (after w l) = l.
Proof. unfold since, after; simpl. apply drop_app_length. Qed.

Lemma after_nil w : after w [] = w.
Proof. destruct w; unfold after; simpl. by rewrite app_nil_r. Qed.

Lemma after_after w l k : after (after w l) k = after w (l ++ k).
Proof. unfold after; simpl. by rewrite app_assoc. Qed.

Ltac run_spin :=
  unfold bootstrap_spin, marker_matched, output_of, wait_write, bind, invoke, ret,
         lift, raise, after, decode in *;
  simpl in *.

(** The four ways through the method. *)

Lemma spin_timeout t self w :
  300 < spins self ->
  spin t self w = (Ok (vm_start (vm_stop self)), after w [VM_stop; VM_start]).
Proof.
  intros H. apply Z.ltb_lt in H. run_spin. rewrite H. simpl.
  by rewrite <- !app_assoc.
Qed.

Lemma spin_login t self w :
  spins self <= 300 -> marker_matched t = true ->
  spin t self w = (Ok (set_running true self), after w (login_calls t self)).
Proof.
  intros H M. apply Z.ltb_ge in H. run_spin. rewrite H.
  destruct (expect_result t) as [[ridx m] res]. rewrite M. simpl.
  by rewrite <- !app_assoc.
Qed.

Lemma spin_quiet t self w :
  spins self <= 300 -> marker_matched t = false -> output_of t = [] ->
  spin t self w
  = (Ok (set_spins (spins self + 1) self),
     after w [Tn_expect [bytes_of "FreeBSD/amd64"] 1]).
Proof.
  intros H M E. apply Z.ltb_ge in H. run_spin. rewrite H.
  destruct (expect_result t) as [[ridx m] res]. rewrite M. by subst res.
Qed.

Lemma spin_output t self w :
  spins self <= 300 -> marker_matched t = false ->
  output_of t <> [] -> utf8_valid (output_of t) = true ->
  spin t self w
  = (Ok (set_spins 1 self),
     after w [Tn_expect [bytes_of "FreeBSD/amd64"] 1;
              Logger_trace (Text ("OUTPUT: " +:+ string_of_list_byte (output_of t)))]).
Proof.
  intros H M E U. apply Z.ltb_ge in H. run_spin. rewrite H.
  destruct (expect_result t) as [[ridx m] res]. rewrite M.
  destruct res as [|x res]; [done|]. rewrite U. simpl.
  by rewrite <- !app_assoc.
Qed.

Lemma spin_garbled t self w :
  spins self <= 300 -> marker_matched t = false ->
  output_of t <> [] -> utf8_valid (output_of t) = false ->
  spin t self w
  = (Raise UnicodeDecodeError, after w [Tn_expect [bytes_of "FreeBSD/amd64"] 1]).
Proof.
  intros H M E U. apply Z.ltb_ge in H. run_spin. rewrite H.
  destruct (expect_result t) as [[ridx m] res]. rewrite M.
  destruct res as [|x res]; [done|]. by rewrite U.
Qed.

Lemma spin_outcomeP t self w : spin_outcome vm_stop vm_start t self w (spin t self w).
Proof.
  destruct (Z_lt_le_dec 300 (spins self)) as [H|H].
  { rewrite spin_timeout by done. by constructor. }
  destruct (marker_matched t) eqn:M.
  { rewrite spin_login by done. by constructor. }
  destruct (output_of t) as [|x res] eqn:E.
  { rewrite spin_quiet by done. by constructor. }
  assert (output_of t <> []) as E' by (by rewrite E).
  destruct (utf8_valid (output_of t)) eqn:U.
  - rewrite spin_output by done. by constructor.
  - rewrite spin_garbled by done. by constructor.
Qed.

(** Calls are only ever added, and [bootstrap_spin] leaves the files alone. *)
Lemma spin_after t self w : exists l, (spin t self w).2 = after w l.
Proof. destruct (spin_outcomeP t self w); simpl; eauto. Qed.

Lemma run_after ticks self w : exists l, (run ticks self w).2 = after w l.
Proof.
  revert self w. induction ticks as [|t ticks IH]; intros self w; simpl.
  { exists []. by rewrite after_nil. }
  unfold bind. destruct (spin_after t self w) as [l Hl].
  destruct (spin t self w) as [[self1|e] w1]; simpl in Hl; subst w1.
  - destruct (IH self1 (after w l)) as [k Hk]. rewrite Hk, after_after. eauto.
  - simpl. eauto.
Qed.

Lemma run_cons t ticks self w :
  run (t :: ticks) self w
  = match spin t self w with
    | (Ok self1, w1) => run ticks self1 w1
    | (Raise e, w1) => (Raise e, w1)
    end.
Proof. reflexivity. Qed.

Lemma chatty_inv t :
  chatty t = true ->
  marker_matched t = false /\ output_of t <> [] /\ utf8_valid (output_of t) = true.
Proof.
  unfold chatty. intros H.
  apply andb_true_iff in H as [H U]. apply andb_true_iff in H as [M E].
  apply negb_true_iff in M. destruct (output_of t); done.
Qed.

Lemma chatty_run ticks self w :
  spins self <= 300 -> Forall (fun t => chatty t = true) ticks -> ticks <> [] ->
  exists self' l,
    run ticks self w = (Ok self', after w l)
    /\ spins self' = 1 /\ existsb is_vm_stop l = false.
Proof.
  revert self w. induction ticks as [|t ticks IH]; intros self w Hs Hc Hne; [done|].
  apply Forall_cons in Hc as [Ht Hc]. apply chatty_inv in Ht as (M & E & U).
  rewrite run_cons, spin_output by done.
  destruct ticks as [|t' ticks'].
  { simpl. unfold ret. eexists _, _. split; [reflexivity|]. done. }
  destruct (IH (set_spins 1 self) (after w [Tn_expect [bytes_of "FreeBSD/amd64"] 1;
              Logger_trace (Text ("OUTPUT: " +:+ string_of_list_byte (output_of t)))]))
    as (self' & l & Hrun & Hsp & Hl); [simpl; lia|done|done|].
  rewrite Hrun, after_after. eexists _, _. split; [reflexivity|]. split; [done|].
  simpl. exact Hl.
Qed.

(** C1, as amended.  On a call of [bootstrap_spin] that reads the console
    (at most 300 spins at its start), when the read matches no boot marker
    and returns non-empty output that decodes as UTF-8, the spin counter
    ends the call equal to 1: it is reset to 0 and then incremented.  Hence
    over any sequence of such calls that starts with at most 300 spins, the
    counter is 1 after every call, and no call stops the VM. *)
Theorem output_tick_leaves_one_spin :
  (forall t self w,
      spins self <= 300 -> marker_matched t = false ->
      output_of t <> [] -> utf8_valid (output_of t) = true ->
      exists self' w',
        bootstrap_spin vm_stop vm_start t self w = (Ok self', w')
        /\ self' = set_spins 1 self /\ spins self' = 1
        /\ existsb is_vm_stop (since w w') = false)
  /\ (forall ticks n self w,
      spins self <= 300 -> Forall (fun t => chatty t = true) ticks ->
      ticks <> [] -> (0 < n)%nat ->
      exists self' w',
        run_ticks vm_stop vm_start (take n ticks) self w = (Ok self', w')
        /\ spins self' = 1
        /\ existsb is_vm_stop (since w w') = false).
Proof.
  split.
  - intros t self w Hs M E U. rewrite spin_output by done.
    eexists _, _. split; [reflexivity|]. by rewrite since_after.
  - intros ticks n self w Hs Hc Hne Hn.
    destruct (chatty_run (take n ticks) self w) as (self' & l & Hrun & Hsp & Hl).
    + done.
    + by apply Forall_take.
    + destruct ticks; [done|]. destruct n; [lia|done].
    + exists self', (after w l). by rewrite since_after.
Qed.

(** C2.  A call of [bootstrap_spin] takes the time-out action (it stops the
    VM, starts it again and returns, with no other call in between or after)
    if and only if the spin counter is strictly above 300 when the call
    begins; a call that begins with at most 300 spins neither stops nor
    starts the VM. *)
Theorem timeout_iff_spins_exceed_limit t self w :
  (bootstrap_spin vm_stop vm_start t self w
   = (Ok (vm_start (vm_stop self)), after w [VM_stop; VM_start])
   <-> 300 < spins self)
  /\ (In VM_stop (since w (bootstrap_spin vm_stop vm_start t self w).2)
      \/ In VM_start (since w (bootstrap_spin vm_stop vm_start t self w).2)
      <-> 300 < spins self).
Proof.
  split; split.
  - intros H. destruct (spin_outcomeP t self w) as [?|Hs M|Hs M E|Hs M E U|Hs M E U];
      [done|..]; apply (f_equal (fun r => since w r.2)) in H; simpl in H;
      rewrite !since_after in H; discriminate.
  - apply spin_timeout.
  - destruct (spin_outcomeP t self w) as [?|Hs M|Hs M E|Hs M E U|Hs M E U];
      [done|..]; simpl; rewrite since_after; simpl; intros [H|H];
      repeat (destruct H as [H|H]; [discriminate|]); done.
  - intros H. rewrite spin_timeout by done. simpl. rewrite since_after. left. by left.
Qed.

(** C4.  On a call of [bootstrap_spin] whose console read matches the
    boot-completion marker (the console is read only when the call begins
    with at most 300 spins), the same call writes a carriage return, then the
    user name once ["login:"] is seen, then the password once ["Password:"]
    is seen, then a carriage return, closes the console exactly once, reads
    the clock and reports the time elapsed since [start_time], and returns
    with [running] set.  The user name written is the literal ["admin"]. *)
Theorem marker_tick_logs_in t self w :
  spins self <= 300 -> marker_matched t = true ->
  exists self' w',
    bootstrap_spin vm_stop vm_start t self w = (Ok self', w')
    /\ since w w'
       = [ Tn_expect [bytes_of "FreeBSD/amd64"] 1;
           Logger_info (Text "VM started");
           Wait_write CR None;
           Wait_write "admin" (Some "login:");
           Wait_write (password self) (Some "Password:");
           Wait_write CR None;
           Logger_info (Text "Login completed");
           Tn_close;
           Datetime_now;
           Logger_info (Text_timedelta "Startup complete in: %s" (now t - start_time self)) ]
    /\ length (filter is_tn_close (since w w')) = 1%nat
    /\ running self' = true
    /\ self' = set_running true self.
Proof.
  intros Hs M. rewrite spin_login by done.
  eexists _, _. split; [reflexivity|]. by rewrite since_after.
Qed.

Lemma run_since ticks self1 w l r w' :
  run ticks self1 (after w l) = (r, w') ->
  since w w' = l ++ since (after w l) w'.
Proof.
  intros Hrun. destruct (run_after ticks self1 (after w l)) as [k Hk].
  rewrite Hrun in Hk; simpl in Hk; subst w'.
  by rewrite (since_after (after w l) k), after_after, since_after.
Qed.

Lemma run_running ticks : forall self w self' w',
  run ticks self w = (Ok self', w') ->
  existsb is_vm_stop (since w w') = false ->
  running self = true -> running self' = true.
Proof.
  induction ticks as [|t ticks IH]; intros self w self' w' Hrun Hno Hr.
  { simpl in Hrun. unfold ret in Hrun. by inversion Hrun; subst. }
  rewrite run_cons in Hrun.
  destruct (spin_outcomeP t self w); try discriminate;
    rewrite (run_since _ _ _ _ _ _ Hrun), existsb_app in Hno;
    apply orb_false_iff in Hno as [Hl Hno]; try discriminate;
    by apply (IH _ _ _ _ Hrun Hno).
Qed.

(** C5.  Within one session [running] goes from false to true at most once:
    a call of [bootstrap_spin] that does not take the time-out action leaves
    [running] as it was or sets it, and sets it exactly when the marker is
    matched; so over any run of calls in which the VM is never stopped, once
    [running] is true it is true after every later call. *)
Theorem running_never_reverts :
  (forall t self w self' w',
      spins self <= 300 -> bootstrap_spin vm_stop vm_start t self w = (Ok self', w') ->
      running self' = running self || marker_matched t)
  /\ (forall ticks self w self' w',
      run_ticks vm_stop vm_start ticks self w = (Ok self', w') ->
      existsb is_vm_stop (since w w') = false ->
      running self = true -> running self' = true).
Proof.
  split; [|exact run_running].
  intros t self w self' w' Hs Hrun.
  destruct (spin_outcomeP t self w) as [?|? M|? M ?|? M ? ?|? M ? ?];
    [lia| | | |discriminate]; inversion Hrun; subst; rewrite M; simpl;
    by rewrite ?orb_true_r, ?orb_false_r.
Qed.

Lemma silent_run ticks : forall self w,
  Forall (fun t => marker_matched t = false) ticks ->
  filter is_wait_write (since w (run ticks self w).2) = [].
Proof.
  induction ticks as [|t ticks IH]; intros self w Hm.
  { simpl. unfold since. by rewrite drop_all. }
  apply Forall_cons in Hm as [M Hm]. rewrite run_cons.
  destruct (spin_outcomeP t self w) as [?|? M'|? ? ?|? ? ? ?|? ? ? ?];
    [|congruence|..]; simpl; rewrite ?since_after; try done;
    match goal with |- context [run_ticks _ _ ?tk ?s (after ?w0 ?l)] =>
      rewrite (run_since tk s w0 l (run tk s (after w0 l)).1 (run tk s (after w0 l)).2)
        by (by destruct (run tk s (after w0 l)));
      rewrite filter_app, (IH s (after w0 l) Hm) end; done.
Qed.

(** C6.  A call of [bootstrap_spin] whose console read does not match the
    boot-completion marker makes no [wait_write] call: nothing is written to
    the console.  Over any run of calls none of which sees the marker, the
    login sequence is never started. *)
Theorem no_write_without_marker :
  (forall t self w,
      marker_matched t = false ->
      filter is_wait_write (since w (bootstrap_spin vm_stop vm_start t self w).2) = [])
  /\ (forall ticks self w,
      Forall (fun t => marker_matched t = false) ticks ->
      filter is_wait_write (since w (run_ticks vm_stop vm_start ticks self w).2) = []).
Proof.
  split; [|exact silent_run].
  intros t self w M.
  destruct (spin_outcomeP t self w) as [?|? M'|? ? ?|? ? ? ?|? ? ? ?];
    [|congruence|..]; simpl; by rewrite since_after.
Qed.

End Bootstrap_spin.

(** * Properties of the constructor and of [startup_config] *)

Section Startup.

Variable make_config_sh : option node -> Z * option string.

Local Abbreviation init := (__init__ make_config_sh).

(** ** [str.replace]: the leftmost occurrence is replaced, then the rest *)

Lemma append_nil s : EmptyString +:+ s = s.
Proof. reflexivity. Qed.

Lemma append_cons c s t : String c s +:+ t = String c (s +:+ t).
Proof. reflexivity. Qed.

Lemma append_empty_r s : s +:+ EmptyString = s.
Proof. induction s as [|c s IH]; [done|]. by rewrite append_cons, IH. Qed.

Lemma replace_from_skip old new x s :
  replace_from old new (String.length x) (x +:+ s) = replace_from old new 0 s.
Proof. induction x as [|c x IH]; [reflexivity|exact IH]. Qed.

Lemma prefix_app old s : String.prefix old (old +:+ s) = true.
Proof.
  induction old as [|c old IH]; [by destruct s|].
  rewrite append_cons. simpl. destruct (ascii_dec c c); [exact IH|done].
Qed.

Lemma replace_leftmost old new a s :
  old <> EmptyString -> starts_nowhere old a (old +:+ s) ->
  replace old new (a +:+ old +:+ s) = a +:+ new +:+ replace old new s.
Proof.
  intros Hold. unfold replace. induction a as [|c a IH].
  - intros _. rewrite !append_nil. destruct old as [|c old]; [done|].
    pose proof (prefix_app (String c old) s) as Hp.
    rewrite append_cons in *. cbn [replace_from]. rewrite Hp.
    cbn [String.length Nat.pred].
    by rewrite (replace_from_skip (String c old) new old s).
  - intros [Hc Ha]. rewrite !append_cons in *. cbn [replace_from].
    rewrite Hc. by rewrite IH.
Qed.

Lemma replace_absent old new a :
  starts_nowhere old a EmptyString -> replace old new a = a.
Proof.
  unfold replace. induction a as [|c a IH]; [done|].
  intros [Hc Ha]. rewrite append_empty_r in Hc. cbn [replace_from].
  rewrite Hc. by rewrite IH.
Qed.

Example replace_scenario_1 :
  replace "{HOSTNAME}" "vr-edge1" "hostname {HOSTNAME};" = "hostname vr-edge1;".
Proof. reflexivity. Qed.

Example replace_every_occurrence :
  replace "{HOSTNAME}" "r1" "{HOSTNAME}{HOSTNAME} {HOST{HOSTNAME}"
  = "r1r1 {HOSTr1".
Proof. reflexivity. Qed.

Example re_search_qcow2_examples :
  re_search_qcow2 "vJunos-router-23.2R1.15.qcow2" = true
  /\ re_search_qcow2 "disk.qcow2.bak" = false
  /\ re_search_qcow2 "xqcow2" = true
  /\ re_search_qcow2 "qcow2" = false.
Proof. by repeat split. Qed.

Example utf8_valid_examples :
  utf8_valid (bytes_of "Booting [/kernel]...") = true
  /\ utf8_valid [xc3; xa9] = true
  /\ utf8_valid [xff] = false
  /\ utf8_valid [xc0; x80] = false
  /\ utf8_valid [xed; xa0; x80] = false.
Proof. by repeat split. Qed.

Lemma find_disk_image_from entries : forall acc,
  Forall (fun e => re_search_qcow2 e = false) entries ->
  fold_left (fun disk_image e =>
               if re_search_qcow2 e then Some ("/" +:+ e) else disk_image)
            entries acc = acc.
Proof.
  induction entries as [|e entries IH]; intros acc H; [done|].
  apply Forall_cons in H as [He H]. simpl. rewrite He. by apply IH.
Qed.

Lemma find_disk_image_none entries :
  Forall (fun e => re_search_qcow2 e = false) entries ->
  find_disk_image entries = None.
Proof. apply find_disk_image_from. Qed.

Lemma find_disk_image_last pre e post :
  re_search_qcow2 e = true ->
  Forall (fun e => re_search_qcow2 e = false) post ->
  find_disk_image (pre ++ e :: post) = Some ("/" +:+ e).
Proof.
  intros He Hpost. unfold find_disk_image.
  rewrite fold_left_app. simpl. rewrite He. by apply find_disk_image_from.
Qed.

Lemma init_unbound host h u p cm w :
  find_disk_image (listdir_root host) = None ->
  init host h u p cm w = (Raise (UnboundLocalError "disk_image"), w).
Proof. intros H. unfold __init__, bind, raise. by rewrite H. Qed.

(** ** Stepping through a computation *)

Lemma bind_Ok {A B} (m : Py A) (k : A -> Py B) w a w1 :
  m w = (Ok a, w1) -> bind m k w = k a w1.
Proof. intros H. unfold bind. by rewrite H. Qed.

Lemma bind_Raise {A B} (m : Py A) (k : A -> Py B) w e w1 :
  m w = (Raise e, w1) -> bind m k w = (Raise e, w1).
Proof. intros H. unfold bind. by rewrite H. Qed.

Lemma bind_Ok_inv {A B} (m : Py A) (k : A -> Py B) w v w' :
  bind m k w = (Ok v, w') ->
  exists a w1, m w = (Ok a, w1) /\ k a w1 = (Ok v, w').
Proof.
  unfold bind. destruct (m w) as [[a|e] w1]; intros H; [eauto|discriminate].
Qed.

Lemma grows_ret {A} (a : A) : grows (ret a).
Proof. intros w. exists []. simpl. by rewrite app_nil_r. Qed.

Lemma grows_raise {A} e : grows (@raise A e).
Proof. intros w. exists []. simpl. by rewrite app_nil_r. Qed.

Lemma grows_lift {A} (r : result A) : grows (lift r).
Proof. intros w. exists []. simpl. by rewrite app_nil_r. Qed.

Lemma grows_invoke c : grows (invoke c).
Proof. intros w. by exists [c]. Qed.

Lemma grows_put_fs m : grows (put_fs m).
Proof. intros w. exists []. simpl. by rewrite app_nil_r. Qed.

Lemma grows_bind {A B} (m : Py A) (k : A -> Py B) :
  grows m -> (forall a, grows (k a)) -> grows (bind m k).
Proof.
  intros Hm Hk w. unfold bind. destruct (Hm w) as [l Hl].
  destruct (m w) as [[a|e] w1]; simpl in *.
  - destruct (Hk a w1) as [l' Hl']. exists (l ++ l'). by rewrite Hl', Hl, app_assoc.
  - eauto.
Qed.

Lemma grows_get_fs_bind {B} (k : gmap string node -> Py B) :
  (forall m, grows (k m)) -> grows (bind get_fs k).
Proof. intros Hk. apply grows_bind; [|done]. intros w. exists []. simpl. by rewrite app_nil_r. Qed.

Ltac grows :=
  repeat first
    [ apply grows_ret | apply grows_raise | apply grows_lift | apply grows_invoke
    | apply grows_put_fs
    | apply grows_get_fs_bind; intros ?
    | apply grows_bind; [|intros ?]
    | match goal with
      | |- grows (match ?x with _ => _ end) => destruct x
      end ].

Lemma grows_startup_config : grows (startup_config make_config_sh).
Proof.
  unfold startup_config, run_make_config, os_path_exists, os_rename, sh_cat_append,
    cat_operand.
  grows.
Qed.

Lemma grows_read_text path : grows (read_text path).
Proof. unfold read_text. grows. Qed.

Lemma grows_write_text path text : grows (write_text path text).
Proof. unfold write_text. grows. Qed.

(** The constructor hands the chosen image to the parent class first, and
    an object that it returns has the attributes it was given. *)
Lemma init_bound host h u p cm w d :
  find_disk_image (listdir_root host) = Some d ->
  exists r w' l,
    init host h u p cm w = (r, w')
    /\ calls w' = calls w ++ parent_init u p d :: l
    /\ (forall vm, r = Ok vm -> vm = constructed host h u p cm d).
Proof.
  intros H. unfold __init__. rewrite H.
  rewrite (bind_Ok _ _ w d w) by done.
  rewrite (bind_Ok _ _ w tt (after w [parent_init u p d])) by done.
  match goal with |- context [bind ?m ?k (after w ?c)] =>
    assert (grows (bind m k)) as G; [|set (rest := bind m k) in *] end.
  { apply grows_bind; [apply grows_read_text|intros cfg].
    apply grows_bind; [apply grows_write_text|intros _].
    apply grows_bind; [apply grows_startup_config|intros _]. apply grows_ret. }
  destruct (G (after w [parent_init u p d])) as [l Hl].
  destruct (rest (after w [parent_init u p d])) as [r w'] eqn:E.
  exists r, w', l. split; [done|]. split.
  { simpl in Hl. by rewrite Hl, <- app_assoc. }
  intros vm ->. subst rest.
  apply bind_Ok_inv in E as (cfg & w1 & _ & E).
  apply bind_Ok_inv in E as (? & w2 & _ & E).
  apply bind_Ok_inv in E as (? & w3 & _ & E).
  unfold ret in E. by inversion E.
Qed.

(** C10.  Constructing a [VJUNOSROUTER_vm] needs an entry of the listing of
    [/] that matches [.qcow2$]: when none matches, the constructor raises
    [UnboundLocalError] for [disk_image] before it has called anything or
    touched a file; when some entry matches, the image handed to the parent
    class is [/] followed by the last matching entry of the listing. *)
Theorem disk_image_is_last_match host h u p cm w :
  (Forall (fun e => re_search_qcow2 e = false) (listdir_root host) ->
     __init__ make_config_sh host h u p cm w = (Raise (UnboundLocalError "disk_image"), w))
  /\ (forall pre e post,
       listdir_root host = pre ++ e :: post ->
       re_search_qcow2 e = true ->
       Forall (fun e => re_search_qcow2 e = false) post ->
       exists r w' l,
         __init__ make_config_sh host h u p cm w = (r, w')
         /\ since w w'
            = VM_init u p ("/" +:+ e) 5120 "virtio" "host,vmx=on"
                      "4,sockets=1,cores=4,threads=1" :: l
         /\ (forall vm, r = Ok vm -> disk_image vm = "/" +:+ e)).
Proof.
  split.
  - intros H. apply init_unbound. by apply find_disk_image_none.
  - intros pre e post Hl He Hpost.
    destruct (init_bound host h u p cm w ("/" +:+ e)) as (r & w' & l & Hi & Hc & Hvm).
    { rewrite Hl. by apply find_disk_image_last. }
    exists r, w', l. split; [done|]. split.
    + unfold since. rewrite Hc. apply drop_app_length.
    + intros vm Hr. by rewrite (Hvm vm Hr).
Qed.

(** ** The steps of [startup_config] on known files *)

Lemma read_text_File path c w :
  fs w !! path = Some (File c) -> utf8_valid (list_byte_of_string c) = true ->
  read_text path w = (Ok (universal_newlines c), w).
Proof.
  intros H U. unfold read_text, bind, get_fs, lift, decode_text. by rewrite H, U.
Qed.

Lemma read_text_garbled path c w :
  fs w !! path = Some (File c) -> utf8_valid (list_byte_of_string c) = false ->
  read_text path w = (Raise UnicodeDecodeError, w).
Proof.
  intros H U. unfold read_text, bind, get_fs, lift, decode_text. by rewrite H, U.
Qed.

Lemma read_text_missing path w :
  fs w !! path = None -> read_text path w = (Raise (FileNotFoundError path), w).
Proof. intros H. unfold read_text, bind, get_fs, raise. by rewrite H. Qed.

Lemma write_text_File path c text w :
  fs w !! path = Some (File c) ->
  write_text path text w = (Ok tt, mkWorld (<[path := File text]> (fs w)) (calls w)).
Proof. intros H. unfold write_text, bind, get_fs, put_fs. by rewrite H. Qed.

Lemma os_path_exists_eq path w :
  os_path_exists path w = (Ok (truthy (fs w !! path)), w).
Proof. reflexivity. Qed.

Lemma os_rename_File src dst c w :
  fs w !! src = Some (File c) -> fs w !! dst <> Some Dir ->
  os_rename src dst w
  = (Ok tt, mkWorld (<[dst := File c]> (delete src (fs w))) (calls w)).
Proof.
  intros Hs Hd. unfold os_rename, bind, get_fs, put_fs, raise. rewrite Hs.
  destruct (fs w !! dst) as [[?|]|]; done.
Qed.

Lemma sh_cat_append_eq f1 f2 out w :
  fs w !! out <> Some Dir ->
  sh_cat_append f1 f2 out w
  = (Ok (if (cat_operand (fs w) f1).2 && (cat_operand (fs w) f2).2 then 0 else 1),
     mkWorld (<[out := File (text_of (fs w !! out)
                             +:+ (cat_operand (fs w) f1).1
                             +:+ (cat_operand (fs w) f2).1)]> (fs w))
             (calls w)).
Proof.
  intros Hd. unfold sh_cat_append, bind, get_fs, put_fs, ret.
  destruct (cat_operand (fs w) f1) as [c1 ok1], (cat_operand (fs w) f2) as [c2 ok2].
  destruct (fs w !! out) as [[?|]|]; done.
Qed.

Lemma run_make_config_ok w :
  run_make_config make_config_sh w
  = (Ok tt,
     mkWorld (with_image make_config_sh (fs w))
             (calls w ++ [Subprocess_run ["./make-config.sh"; "juniper.conf"; "config.img"]
                                         false true
                                         (make_config_sh (fs w !! "juniper.conf")).1])).
Proof.
  unfold run_make_config, subprocess_run, reaped_returncode, with_image,
    bind, get_fs, put_fs, invoke, ret.
  by destruct (make_config_sh (fs w !! "juniper.conf")) as [status [i|]].
Qed.

Lemma with_image_artifact m : with_image make_config_sh m !! "juniper.conf" = m !! "juniper.conf".
Proof. unfold with_image. destruct (make_config_sh _).2; by simplify_map_eq. Qed.


Lemma startup_config_rename w c :
  fs w !! STARTUP_CONFIG_FILE = None ->
  fs w !! "init.conf" = Some (File c) ->
  fs w !! "juniper.conf" <> Some Dir ->
  startup_config make_config_sh w
  = (Ok tt,
     mkWorld (with_image make_config_sh (<["juniper.conf" := File c]> (delete "init.conf" (fs w))))
             (calls w ++ [Logger_trace (Text "Startup config file /config/startup-config.cfg is not found");
                          Subprocess_run ["./make-config.sh"; "juniper.conf"; "config.img"]
                                         false true (make_config_sh (Some (File c))).1])).
Proof.
  intros Hu Hi Hj. unfold startup_config.
  rewrite (bind_Ok _ _ _ _ _ (os_path_exists_eq _ _)). rewrite Hu. simpl.
  erewrite (bind_Ok (bind (invoke _) _)); cycle 1.
  { erewrite bind_Ok by reflexivity. by apply os_rename_File. }
  rewrite run_make_config_ok; simpl.
  by rewrite <- app_assoc, lookup_insert_eq.
Qed.

Lemma startup_config_append w n :
  fs w !! STARTUP_CONFIG_FILE = Some n ->
  fs w !! "juniper.conf" <> Some Dir ->
  startup_config make_config_sh w
  = (Ok tt,
     mkWorld (with_image make_config_sh
                (<["juniper.conf" :=
                     File (text_of (fs w !! "juniper.conf")
                           +:+ (cat_operand (fs w) "init.conf").1
                           +:+ (cat_operand (fs w) STARTUP_CONFIG_FILE).1)]> (fs w)))
             (calls w ++ [Logger_trace (Text "Startup config file /config/startup-config.cfg found, appending initial configuration");
                          Subprocess_run ["cat init.conf /config/startup-config.cfg >> juniper.conf"]
                            true false
                            (if (cat_operand (fs w) "init.conf").2
                                && (cat_operand (fs w) STARTUP_CONFIG_FILE).2
                             then 0 else 1);
                          Subprocess_run ["./make-config.sh"; "juniper.conf"; "config.img"]
                            false true
                            (make_config_sh
                               (Some (File (text_of (fs w !! "juniper.conf")
                                            +:+ (cat_operand (fs w) "init.conf").1
                                            +:+ (cat_operand (fs w) STARTUP_CONFIG_FILE).1)))).1])).
Proof.
  intros Hu Hj. unfold startup_config.
  rewrite (bind_Ok _ _ _ _ _ (os_path_exists_eq _ _)). rewrite Hu. simpl.
  erewrite (bind_Ok (bind (invoke _) _)); cycle 1.
  { erewrite bind_Ok by reflexivity.
    erewrite bind_Ok by (by apply sh_cat_append_eq). reflexivity. }
  rewrite run_make_config_ok; simpl.
  by rewrite <- !app_assoc, lookup_insert_eq.
Qed.

Lemma init_steps host h u p cm w d tpl r w' :
  find_disk_image (listdir_root host) = Some d ->
  fs w !! "init.conf" = Some (File tpl) ->
  utf8_valid (list_byte_of_string tpl) = true ->
  startup_config make_config_sh
    (mkWorld (<["init.conf" := File (replace "{HOSTNAME}" h (universal_newlines tpl))]> (fs w))
             (calls w ++ [parent_init u p d])) = (r, w') ->
  init host h u p cm w
  = (match r with Ok _ => Ok (constructed host h u p cm d) | Raise e => Raise e end, w').
Proof.
  intros Hd Ht U Hs. unfold __init__. rewrite Hd.
  rewrite (bind_Ok _ _ w d w) by done.
  rewrite (bind_Ok _ _ w tt (after w [parent_init u p d])) by done.
  erewrite bind_Ok by (by apply read_text_File).
  erewrite bind_Ok by (by eapply write_text_File).
  simpl. unfold bind at 1. rewrite Hs. by destruct r.
Qed.






End Startup.

(** * The constructor and the polling step together *)

Section Login.

Variables vm_stop vm_start : VM -> VM.
Variable make_config_sh : option node -> Z * option string.

(** C3, as amended.  In a login sequence, the name written in answer to
    ["login:"] is the literal ["admin"], whatever the [username] of the
    object, and the text written in answer to ["Password:"] is its
    [password]; the constructor stores the caller's user name and password in
    these attributes, and a call of [bootstrap_spin] that does not take the
    time-out action leaves both as they are. *)
Theorem login_writes_admin :
  (forall t self w,
      spins self <= 300 -> marker_matched t = true ->
      written_at "login:" (since w (bootstrap_spin vm_stop vm_start t self w).2)
      = Some "admin"
      /\ written_at "Password:" (since w (bootstrap_spin vm_stop vm_start t self w).2)
         = Some (password self))
  /\ (forall host h u p cm w vm w',
      __init__ make_config_sh host h u p cm w = (Ok vm, w') ->
      username vm = u /\ password vm = p)
  /\ (forall t self w self' w',
      spins self <= 300 ->
      bootstrap_spin vm_stop vm_start t self w = (Ok self', w') ->
      username self' = username self /\ password self' = password self).
Proof.
  split; [|split].
  - intros t self w Hs M. rewrite spin_login by done. simpl. by rewrite since_after.
  - intros host h u p cm w vm w' Hi.
    destruct (find_disk_image (listdir_root host)) as [d|] eqn:Hd.
    + destruct (init_bound make_config_sh host h u p cm w d Hd)
        as (r & w1 & l & Hi' & _ & Hvm).
      rewrite Hi in Hi'. inversion Hi'; subst. by rewrite (Hvm vm eq_refl).
    + rewrite init_unbound in Hi by done. discriminate.
  - intros t self w self' w' Hs Hrun.
    destruct (spin_outcomeP vm_stop vm_start t self w); try lia;
      by inversion Hrun; subst.
Qed.

End Login.


(** * Instances and counterexamples *)

(** C1: the claim as stated fails.  A read that brings ["Booting
    [/kernel]..."] and no marker leaves the counter at 1, not 0, and so do a
    thousand such reads in a row. *)
Lemma output_tick_spins_not_zero :
  marker_matched tick_output = false
  /\ output_of tick_output <> []
  /\ (exists self' w',
        bootstrap_spin stop_clears start_fresh tick_output a_vm (no_calls ∅) = (Ok self', w')
        /\ spins self' = 1 /\ spins self' <> 0)
  /\ (exists self' w',
        run_ticks stop_clears start_fresh (replicate 1000 tick_output) a_vm (no_calls ∅)
        = (Ok self', w')
        /\ spins self' = 1 /\ ~ spins self' <= 0).
Proof.
  split; [reflexivity|]. split; [discriminate|]. split.
  - eexists _, _. split; [vm_compute; reflexivity|]. split; [reflexivity|discriminate].
  - destruct (chatty_run stop_clears start_fresh (replicate 1000 tick_output) a_vm (no_calls ∅))
      as (self' & l & Hrun & Hsp & _).
    + simpl; lia.
    + by apply Forall_replicate.
    + discriminate.
    + exists self', (after (no_calls ∅) l). rewrite Hsp. split; [done|]. split; [done|lia].
Qed.

Lemma output_tick_leaves_one_spin_witness :
  (exists self' w',
      bootstrap_spin stop_clears start_fresh tick_output a_vm (no_calls ∅) = (Ok self', w')
      /\ self' = set_spins 1 a_vm /\ spins self' = 1
      /\ existsb is_vm_stop (since (no_calls ∅) w') = false)
  /\ (exists self' w',
      run_ticks stop_clears start_fresh (take 2 [tick_output; tick_output; tick_output])
                a_vm (no_calls ∅) = (Ok self', w')
      /\ spins self' = 1
      /\ existsb is_vm_stop (since (no_calls ∅) w') = false).
Proof.
  split.
  - apply (proj1 (output_tick_leaves_one_spin stop_clears start_fresh));
      [simpl; lia | reflexivity | discriminate | reflexivity].
  - apply (proj2 (output_tick_leaves_one_spin stop_clears start_fresh));
      [simpl; lia | repeat constructor | discriminate | lia].
Defined.

(** C3: the claim as stated fails.  A VM constructed for the user
    ["vrnetlab"] logs in as ["admin"]. *)
Lemma login_name_is_not_the_callers :
  exists vm w w',
    first_run = (Ok vm, w)
    /\ username vm = "vrnetlab"
    /\ marker_matched tick_marker = true
    /\ (bootstrap_spin stop_clears start_fresh tick_marker vm w).2 = w'
    /\ written_at "login:" (since w w') = Some "admin"
    /\ written_at "login:" (since w w') <> Some (username vm).
Proof.
  eexists _, _, _. split; [vm_compute; reflexivity|].
  split; [reflexivity|]. split; [reflexivity|]. split; [vm_compute; reflexivity|].
  split; [reflexivity|discriminate].
Qed.

Lemma login_writes_admin_witness :
  (written_at "login:"
     (since (no_calls ∅)
            (bootstrap_spin stop_clears start_fresh tick_marker a_vm (no_calls ∅)).2)
   = Some "admin"
   /\ written_at "Password:"
        (since (no_calls ∅)
               (bootstrap_spin stop_clears start_fresh tick_marker a_vm (no_calls ∅)).2)
      = Some (password a_vm))
  /\ password a_vm = "VR-netlab9".
Proof.
  split; [|reflexivity].
  apply (proj1 (login_writes_admin stop_clears start_fresh builder_ok));
    [simpl; lia | reflexivity].
Defined.

Lemma marker_tick_logs_in_witness :
  exists self' w',
    bootstrap_spin stop_clears start_fresh tick_marker a_vm (no_calls ∅) = (Ok self', w')
    /\ since (no_calls ∅) w'
       = [ Tn_expect [bytes_of "FreeBSD/amd64"] 1;
           Logger_info (Text "VM started");
           Wait_write CR None;
           Wait_write "admin" (Some "login:");
           Wait_write (password a_vm) (Some "Password:");
           Wait_write CR None;
           Logger_info (Text "Login completed");
           Tn_close;
           Datetime_now;
           Logger_info (Text_timedelta "Startup complete in: %s"
                                       (now tick_marker - start_time a_vm)) ]
    /\ length (filter is_tn_close (since (no_calls ∅) w')) = 1%nat
    /\ running self' = true
    /\ self' = set_running true a_vm.
Proof.
  apply (marker_tick_logs_in stop_clears start_fresh tick_marker a_vm (no_calls ∅));
    [simpl; lia | reflexivity].
Defined.

Lemma running_never_reverts_witness :
  running (set_running true a_vm) = running a_vm || marker_matched tick_marker
  /\ running (set_spins 1 (set_running true a_vm)) = true.
Proof.
  split.
  - apply (proj1 (running_never_reverts stop_clears start_fresh)
                 tick_marker a_vm (no_calls ∅) _
                 (after (no_calls ∅) (login_calls tick_marker a_vm)));
      [simpl; lia | reflexivity].
  - apply (proj2 (running_never_reverts stop_clears start_fresh)
                 [tick_silent; tick_output] (set_running true a_vm) (no_calls ∅) _
                 (run_ticks stop_clears start_fresh [tick_silent; tick_output]
                            (set_running true a_vm) (no_calls ∅)).2);
      reflexivity.
Defined.

Lemma no_write_without_marker_witness :
  filter is_wait_write
    (since (no_calls ∅)
           (bootstrap_spin stop_clears start_fresh tick_output a_vm (no_calls ∅)).2) = []
  /\ filter is_wait_write
       (since (no_calls ∅)
              (run_ticks stop_clears start_fresh [tick_silent; tick_output; tick_silent]
                         a_vm (no_calls ∅)).2) = [].
Proof.
  split.
  - by apply (proj1 (no_write_without_marker stop_clears start_fresh)).
  - apply (proj2 (no_write_without_marker stop_clears start_fresh)).
    by repeat constructor.
Defined.



(** C8: the user configuration path is a directory, so [cat] exits with 1;
    the constructor returns all the same, with a [juniper.conf] that holds
    the baseline only. *)
Example cat_failure_goes_unreported :
  (__init__ builder_ok a_host "vr-edge1" "vrnetlab" "VR-netlab9" "tc"
            (no_calls files_with_config_dir)).1
  = Ok (constructed a_host "vr-edge1" "vrnetlab" "VR-netlab9" "tc"
                    "/vJunos-router-23.2R1.15.qcow2")
  /\ calls (__init__ builder_ok a_host "vr-edge1" "vrnetlab" "VR-netlab9" "tc"
                     (no_calls files_with_config_dir)).2
     = [ VM_init "vrnetlab" "VR-netlab9" "/vJunos-router-23.2R1.15.qcow2" 5120 "virtio"
                 "host,vmx=on" "4,sockets=1,cores=4,threads=1";
         Logger_trace (Text "Startup config file /config/startup-config.cfg found, appending initial configuration");
         Subprocess_run ["cat init.conf /config/startup-config.cfg >> juniper.conf"]
                        true false 1;
         Subprocess_run ["./make-config.sh"; "juniper.conf"; "config.img"] false true 0 ]
  /\ fs (__init__ builder_ok a_host "vr-edge1" "vrnetlab" "VR-netlab9" "tc"
                  (no_calls files_with_config_dir)).2 !! "juniper.conf"
     = Some (File "hostname vr-edge1;").
Proof. split; [|split]; by vm_compute. Qed.



Lemma disk_image_is_last_match_witness :
  __init__ builder_ok (mkHost ["bin"; "launch.py"] "no-uuid") "vr-edge1" "vrnetlab"
           "VR-netlab9" "tc" (no_calls fresh_files)
  = (Raise (UnboundLocalError "disk_image"), no_calls fresh_files)
  /\ (exists r w' l,
        __init__ builder_ok (mkHost ["a.qcow2"; "b.qcow2"; "launch.py"] "no-uuid") "vr-edge1"
                 "vrnetlab" "VR-netlab9" "tc" (no_calls fresh_files) = (r, w')
        /\ since (no_calls fresh_files) w'
           = VM_init "vrnetlab" "VR-netlab9" ("/" +:+ "b.qcow2") 5120 "virtio" "host,vmx=on"
                     "4,sockets=1,cores=4,threads=1" :: l
        /\ (forall vm, r = Ok vm -> disk_image vm = "/" +:+ "b.qcow2")).
Proof.
  split.
  - apply (proj1 (disk_image_is_last_match builder_ok (mkHost ["bin"; "launch.py"] "no-uuid")
                    "vr-edge1" "vrnetlab" "VR-netlab9" "tc" (no_calls fresh_files))).
    by repeat constructor.
  - apply (proj2 (disk_image_is_last_match builder_ok
                    (mkHost ["a.qcow2"; "b.qcow2"; "launch.py"] "no-uuid")
                    "vr-edge1" "vrnetlab" "VR-netlab9" "tc" (no_calls fresh_files))
                 ["a.qcow2"] "b.qcow2" ["launch.py"]);
      [reflexivity | reflexivity | by repeat constructor].
Defined.

(** * Further properties of [bootstrap_spin] *)

Section Polling.

Variables vm_stop vm_start : VM -> VM.

Lemma set_spins_set_spins n m self : set_spins n (set_spins m self) = set_spins n self.
Proof. reflexivity. Qed.

Lemma set_spins_id self : set_spins (spins self) self = self.
Proof. by destruct self. Qed.

Lemma silent_inv t :
  silent t = true -> marker_matched t = false /\ output_of t = [].
Proof.
  unfold silent. intros H. apply andb_true_iff in H as [M E].
  apply negb_true_iff in M. by destruct (output_of t).
Qed.

Lemma run_app ticks1 ticks2 self w :
  run_ticks vm_stop vm_start (ticks1 ++ ticks2) self w
  = match run_ticks vm_stop vm_start ticks1 self w with
    | (Ok self1, w1) => run_ticks vm_stop vm_start ticks2 self1 w1
    | (Raise e, w1) => (Raise e, w1)
    end.
Proof.
  revert self w. induction ticks1 as [|t ticks1 IH]; intros self w; [done|].
  rewrite <- app_comm_cons, !run_cons.
  destruct (bootstrap_spin vm_stop vm_start t self w) as [[self1|e] w1]; [apply IH|done].
Qed.

Lemma silent_ticks_run ticks : forall self w,
  Forall (fun t => silent t = true) ticks ->
  spins self + Z.of_nat (length ticks) <= 301 ->
  run_ticks vm_stop vm_start ticks self w
  = (Ok (set_spins (spins self + Z.of_nat (length ticks)) self),
     after w (replicate (length ticks) expect_call)).
Proof.
  induction ticks as [|t ticks IH]; intros self w Hs Hn.
  { simpl. unfold ret. by rewrite Z.add_0_r, set_spins_id, after_nil. }
  apply Forall_cons in Hs as [Ht Hs]. apply silent_inv in Ht as [M E].
  cbn [length] in *. rewrite Nat2Z.inj_succ in *.
  rewrite run_cons, spin_quiet by (done || lia).
  rewrite IH by (done || (cbn [spins set_spins]; lia)).
  rewrite after_after, set_spins_set_spins. cbn [spins set_spins].
  do 2 f_equal. f_equal. lia.
Qed.

(** Silent reads are counted one by one: as long as the counter stays within
    301, a run of ticks that bring neither marker nor output returns, makes
    one console read per tick and no other call, and changes nothing in the
    object but the counter, which it raises by the number of ticks. *)
Theorem silent_ticks_are_counted ticks self w :
  Forall (fun t => silent t = true) ticks ->
  spins self + Z.of_nat (length ticks) <= 301 ->
  exists self' w',
    run_ticks vm_stop vm_start ticks self w = (Ok self', w')
    /\ self' = set_spins (spins self + Z.of_nat (length ticks)) self
    /\ since w w' = replicate (length ticks) expect_call
    /\ fs w' = fs w.
Proof.
  intros Hs Hn. rewrite silent_ticks_run by done.
  eexists _, _. split; [reflexivity|]. split; [done|].
  split; [apply since_after|done].
Qed.

(** The spin limit lets 301 silent reads pass: from a counter that the
    silent ticks bring to exactly 301, the next call, whatever the console
    would say, reads nothing, stops the VM and starts it again. *)
Theorem silent_ticks_then_timeout ticks t self w :
  Forall (fun t => silent t = true) ticks ->
  spins self + Z.of_nat (length ticks) = 301 ->
  run_ticks vm_stop vm_start (ticks ++ [t]) self w
  = (Ok (vm_start (vm_stop (set_spins 301 self))),
     after w (replicate (length ticks) expect_call ++ [VM_stop; VM_start])).
Proof.
  intros Hs Hn. rewrite run_app, silent_ticks_run by (done || lia).
  rewrite Hn, run_cons, spin_timeout by (simpl; lia).
  simpl. unfold ret. by rewrite after_after.
Qed.

(** A marker that comes after silent reads, while the counter is still
    within 300, is answered by the login: the run returns with [running]
    set, the counter left at the number of silent reads, and the calls are
    the reads followed by the login sequence. *)
Theorem login_after_silence ticks t self w :
  Forall (fun t => silent t = true) ticks ->
  spins self + Z.of_nat (length ticks) <= 300 ->
  marker_matched t = true ->
  run_ticks vm_stop vm_start (ticks ++ [t]) self w
  = (Ok (set_running true (set_spins (spins self + Z.of_nat (length ticks)) self)),
     after w (replicate (length ticks) expect_call ++ login_calls t self)).
Proof.
  intros Hs Hn M. rewrite run_app, silent_ticks_run by (done || lia).
  rewrite run_cons, spin_login by (done || (cbn [spins set_spins]; lia)).
  simpl. unfold ret. by rewrite after_after.
Qed.

(** Console output that is not valid UTF-8 makes [bootstrap_spin] raise:
    when a call reads the console, sees no marker and gets non-empty output
    that does not decode, [res.decode()] raises [UnicodeDecodeError] after
    the read and before anything is logged; the exception ends the run, so
    the ticks that follow are not polled. *)
Theorem garbled_output_raises t rest self w :
  spins self <= 300 -> marker_matched t = false ->
  output_of t <> [] -> utf8_valid (output_of t) = false ->
  bootstrap_spin vm_stop vm_start t self w
  = (Raise UnicodeDecodeError, after w [expect_call])
  /\ run_ticks vm_stop vm_start (t :: rest) self w
     = (Raise UnicodeDecodeError, after w [expect_call]).
Proof.
  intros Hs M E U.
  assert (bootstrap_spin vm_stop vm_start t self w
          = (Raise UnicodeDecodeError, after w [expect_call])) as H
    by (by apply spin_garbled).
  split; [done|]. by rewrite run_cons, H.
Qed.

(** [bootstrap_spin] never touches a file: after any run of ticks, raising
    or not, the file system is as it was. *)
Theorem polling_leaves_files ticks self w :
  fs (run_ticks vm_stop vm_start ticks self w).2 = fs w.
Proof. destruct (run_after vm_stop vm_start ticks self w) as [l ->]. done. Qed.

(** A call that does not take the time-out action assigns nothing but
    [spins] and [running]: every other attribute is as before; a call that
    sees the marker leaves [spins] alone, and one that does not see it
    leaves [running] alone. *)
Theorem spin_assigns_spins_and_running_only t self w self' w' :
  spins self <= 300 ->
  bootstrap_spin vm_stop vm_start t self w = (Ok self', w') ->
  (username self', password self', disk_image self', hostname self')
  = (username self, password self, disk_image self, hostname self)
  /\ (qemu_args self', nic_type self', num_nics self', smbios self')
     = (qemu_args self, nic_type self, num_nics self, smbios self)
  /\ (conn_mode self', start_time self') = (conn_mode self, start_time self)
  /\ (marker_matched t = true -> spins self' = spins self)
  /\ (marker_matched t = false -> running self' = running self).
Proof.
  intros Hs H.
  destruct (spin_outcomeP vm_stop vm_start t self w) as [?|? M|? M ?|? M ? ?|? M ? ?];
    [lia|..|discriminate]; inversion H; subst; rewrite M; by repeat split.
Qed.

(** Within a session the counter stays within 301: a call that does not take
    the time-out action raises it by at most one and never above 301, and
    over any run in which the VM is never stopped a counter that starts
    within 301 ends within 301. *)
Theorem spins_stay_within_301 :
  (forall t self w self' w',
      spins self <= 300 ->
      bootstrap_spin vm_stop vm_start t self w = (Ok self', w') ->
      spins self' <= 301 /\ spins self' <= Z.max 1 (spins self + 1))
  /\ (forall ticks self w self' w',
      run_ticks vm_stop vm_start ticks self w = (Ok self', w') ->
      existsb is_vm_stop (since w w') = false ->
      spins self <= 301 -> spins self' <= 301).
Proof.
  split.
  - intros t self w self' w' Hs H.
    destruct (spin_outcomeP vm_stop vm_start t self w); [lia|..|discriminate];
      inversion H; subst; cbn [spins set_spins set_running]; lia.
  - induction ticks as [|t ticks IH]; intros self w self' w' Hrun Hno Hs.
    { simpl in Hrun. unfold ret in Hrun. by inversion Hrun; subst. }
    rewrite run_cons in Hrun.
    destruct (spin_outcomeP vm_stop vm_start t self w); try discriminate;
      rewrite (run_since _ _ _ _ _ _ _ _ Hrun), existsb_app in Hno;
      apply orb_false_iff in Hno as [Hl Hno]; try discriminate;
      apply (IH _ _ _ _ Hrun Hno); cbn [spins set_spins set_running]; lia.
Qed.


End Polling.

(** * Further properties of the constructor and of [startup_config] *)

Section Construction.

Variable make_config_sh : option node -> Z * option string.

Lemma read_text_Dir path w :
  fs w !! path = Some Dir -> read_text path w = (Raise (IsADirectoryError path), w).
Proof. intros H. unfold read_text, bind, get_fs, raise. by rewrite H. Qed.


(** A template that cannot be read stops the constructor right after the
    parent class was initialised: [FileNotFoundError] when [init.conf] is
    missing, [IsADirectoryError] when it is a directory.  No file has been
    written, the user configuration was not looked at and [make-config.sh]
    was not run. *)
Theorem unreadable_template_stops_constructor host h u p cm w d :
  find_disk_image (listdir_root host) = Some d ->
  (forall c, fs w !! "init.conf" <> Some (File c)) ->
  __init__ make_config_sh host h u p cm w
  = (Raise (match fs w !! "init.conf" with
            | None => FileNotFoundError "init.conf"
            | Some _ => IsADirectoryError "init.conf"
            end),
     after w [VM_init u p d 5120 "virtio" "host,vmx=on" "4,sockets=1,cores=4,threads=1"]).
Proof.
  intros Hd Ht. unfold __init__. rewrite Hd.
  rewrite (bind_Ok _ _ w d w) by done.
  rewrite (bind_Ok _ _ w tt (after w [parent_init u p d])) by done.
  destruct (fs w !! "init.conf") as [[c|]|] eqn:E.
  - by destruct (Ht c).
  - by erewrite bind_Raise by (by apply read_text_Dir).
  - by erewrite bind_Raise by (by apply read_text_missing).
Qed.

(** The exit status of [make-config.sh] never stops the constructor:
    [handle_SIGCHLD] reaps the child, [subprocess.run] takes the return code
    to be 0 and [check=True] does not raise.  Once the template was read
    (and [juniper.conf] is not a directory) the constructor returns the
    object whatever the status, with [juniper.conf] written, the call of
    the script last, and [config.img] holding what the script built, or what
    it held before when the script built nothing. *)
Theorem make_config_status_is_not_raised host h u p cm w d tpl :
  find_disk_image (listdir_root host) = Some d ->
  fs w !! "init.conf" = Some (File tpl) ->
  utf8_valid (list_byte_of_string tpl) = true ->
  fs w !! "juniper.conf" <> Some Dir ->
  exists w',
    __init__ make_config_sh host h u p cm w = (Ok (constructed host h u p cm d), w')
    /\ fs w' !! "juniper.conf"
       = Some (File (artifact_of (fs w)
                                 (replace "{HOSTNAME}" h (universal_newlines tpl))))
    /\ last (calls w')
       = Some (Subprocess_run ["./make-config.sh"; "juniper.conf"; "config.img"] false true
                 (make_config_sh
                    (Some (File (artifact_of (fs w)
                                   (replace "{HOSTNAME}" h (universal_newlines tpl)))))).1)
    /\ fs w' !! "config.img"
       = match (make_config_sh
                  (Some (File (artifact_of (fs w)
                                 (replace "{HOSTNAME}" h (universal_newlines tpl)))))).2 with
         | Some image => Some (File image)
         | None => fs w !! "config.img"
         end.
Proof.
  intros Hd Ht U Hj. unfold artifact_of.
  destruct (fs w !! STARTUP_CONFIG_FILE) as [n|] eqn:Hu.
  - erewrite init_steps; [| done | done | done |].
    2:{ apply startup_config_append with (n := n); simpl.
        + by rewrite lookup_insert_ne.
        + by rewrite lookup_insert_ne. }
    cbn [fs calls]. unfold cat_operand.
    rewrite lookup_insert_eq, !lookup_insert_ne by done. rewrite Hu. cbn [fst snd].
    assert ((match n with File c => (c, true) | Dir => (EmptyString, false) end).1
            = text_of (Some n)) as -> by (by destruct n).
    eexists. split; [reflexivity|]. cbn [fs calls].
    split; [by rewrite with_image_artifact, lookup_insert_eq|].
    split; [by rewrite last_app|].
    unfold with_image. rewrite lookup_insert_eq.
    destruct (make_config_sh _).2; [by rewrite lookup_insert_eq|].
    by rewrite !lookup_insert_ne.
  - erewrite init_steps; [| done | done | done |].
    2:{ apply startup_config_rename; simpl.
        + by rewrite lookup_insert_ne.
        + by rewrite lookup_insert_eq.
        + by rewrite lookup_insert_ne. }
    eexists. split; [reflexivity|]. cbn [fs calls].
    split; [by rewrite with_image_artifact, lookup_insert_eq|].
    split; [by rewrite last_app|].
    unfold with_image. rewrite lookup_insert_eq.
    destruct (make_config_sh _).2; [by rewrite lookup_insert_eq|].
    by rewrite lookup_insert_ne, lookup_delete_ne, lookup_insert_ne.
Qed.



(** ** Which disk image is chosen *)

Lemma find_disk_image_cases entries :
  (find_disk_image entries = None
   /\ Forall (fun e => re_search_qcow2 e = false) entries)
  \/ (exists pre e post,
        entries = pre ++ e :: post
        /\ re_search_qcow2 e = true
        /\ Forall (fun e => re_search_qcow2 e = false) post
        /\ find_disk_image entries = Some ("/" +:+ e)).
Proof.
  induction entries as [|x entries IH] using rev_ind.
  { left. by split. }
  unfold find_disk_image in *. rewrite fold_left_app. simpl.
  destruct (re_search_qcow2 x) eqn:Hx.
  - right. exists entries, x, []. by repeat split.
  - destruct IH as [[Hn Hf]|(pre & e & post & -> & He & Hpost & Hs)].
    + left. split; [done|]. apply Forall_app. split; [done|]. by constructor.
    + right. exists pre, e, (post ++ [x]). rewrite <- app_assoc. repeat split; try done.
      apply Forall_app. split; [done|]. by constructor.
Qed.

Lemma never_unbound_ret {A} (a : A) : never_unbound (ret a).
Proof. intros w name w' H. discriminate. Qed.

Lemma never_unbound_invoke c : never_unbound (invoke c).
Proof. intros w name w' H. discriminate. Qed.

Lemma never_unbound_bind {A B} (m : Py A) (f : A -> Py B) :
  never_unbound m -> (forall a, never_unbound (f a)) -> never_unbound (bind m f).
Proof.
  intros Hm Hf w name w' H. unfold bind in H.
  destruct (m w) as [[a|e] w1] eqn:E.
  - by apply (Hf a w1 name w').
  - apply (Hm w name w'). rewrite E. by inversion H.
Qed.

Lemma never_unbound_read_text path : never_unbound (read_text path).
Proof.
  intros w name w' H. unfold read_text, bind, get_fs, raise, lift, decode_text in H.
  destruct (fs w !! path) as [[c|]|]; try discriminate.
  by destruct (utf8_valid _).
Qed.

Lemma never_unbound_write_text path text : never_unbound (write_text path text).
Proof.
  intros w name w' H. unfold write_text, bind, get_fs, put_fs, raise in H.
  by destruct (fs w !! path) as [[c|]|].
Qed.

Lemma never_unbound_os_rename src dst : never_unbound (os_rename src dst).
Proof.
  intros w name w' H. unfold os_rename, bind, get_fs, put_fs, raise in H.
  by destruct (fs w !! src) as [[?|]|], (fs w !! dst) as [[?|]|].
Qed.

Lemma never_unbound_sh_cat_append f1 f2 out : never_unbound (sh_cat_append f1 f2 out).
Proof.
  intros w name w' H. unfold sh_cat_append, bind, get_fs, put_fs, ret in H.
  destruct (cat_operand (fs w) f1), (cat_operand (fs w) f2).
  by destruct (fs w !! out) as [[?|]|].
Qed.

Lemma never_unbound_subprocess_run args shell check status :
  never_unbound (subprocess_run args shell check status).
Proof.
  intros w name w' H.
  unfold subprocess_run, reaped_returncode, bind, invoke, ret, raise in H.
  by destruct check.
Qed.

Lemma never_unbound_startup_config : never_unbound (startup_config make_config_sh).
Proof.
  unfold startup_config.
  apply never_unbound_bind; [by intros w name w' H|intros found].
  apply never_unbound_bind.
  - destruct (negb found).
    + apply never_unbound_bind; [apply never_unbound_invoke|intros _].
      apply never_unbound_os_rename.
    + apply never_unbound_bind; [apply never_unbound_invoke|intros _].
      apply never_unbound_bind; [apply never_unbound_sh_cat_append|intros status].
      apply never_unbound_bind; [apply never_unbound_subprocess_run|intros _].
      apply never_unbound_ret.
  - intros _. unfold run_make_config.
    apply never_unbound_bind; [by intros w name w' H|intros m].
    destruct (make_config_sh (m !! "juniper.conf")) as [status img].
    apply never_unbound_bind; [by destruct img|intros _].
    apply never_unbound_bind; [apply never_unbound_subprocess_run|intros _].
    apply never_unbound_ret.
Qed.

(** An object that the constructor returns boots from an image that is in
    the listing of [/]: its [disk_image] is [/] followed by an entry that
    matches [.qcow2$] and that no matching entry follows.  And the
    constructor raises [UnboundLocalError] only when no entry matches. *)
Theorem constructed_image_is_in_listing host h u p cm w :
  (forall vm w',
      __init__ make_config_sh host h u p cm w = (Ok vm, w') ->
      exists pre e post,
        listdir_root host = pre ++ e :: post
        /\ re_search_qcow2 e = true
        /\ Forall (fun e => re_search_qcow2 e = false) post
        /\ disk_image vm = "/" +:+ e)
  /\ (forall name w',
      __init__ make_config_sh host h u p cm w = (Raise (UnboundLocalError name), w') ->
      Forall (fun e => re_search_qcow2 e = false) (listdir_root host)).
Proof.
  destruct (find_disk_image_cases (listdir_root host))
    as [[Hn Hf]|(pre & e & post & Hl & He & Hpost & Hs)].
  - split; [|done]. intros vm w' H. rewrite init_unbound in H by done. discriminate.
  - destruct (init_bound make_config_sh host h u p cm w _ Hs) as (r & w1 & l & Hi & _ & Hvm).
    split.
    + intros vm w' H. rewrite H in Hi. inversion Hi; subst.
      exists pre, e, post. repeat split; try done. by rewrite (Hvm vm eq_refl).
    + intros name w' H. exfalso. revert H. unfold __init__. rewrite Hs.
      rewrite (bind_Ok _ _ w _ w) by done.
      apply never_unbound_bind; [apply never_unbound_invoke|intros _].
      apply never_unbound_bind; [apply never_unbound_read_text|intros cfg].
      apply never_unbound_bind; [apply never_unbound_write_text|intros _].
      apply never_unbound_bind; [apply never_unbound_startup_config|intros _].
      apply never_unbound_ret.
Qed.

End Construction.

(** * Pattern, substitution and logging *)

Section Text.

(** An entry of the listing matches [.qcow2$] exactly when it ends in one
    character other than a newline followed by [qcow2], with at most one
    newline after that.  The dot of the pattern stands for any character, so
    it need not be a dot. *)
Theorem re_search_qcow2_iff e :
  re_search_qcow2 e = true
  <-> exists pre c,
        c <> LF
        /\ (e = pre +:+ String c "qcow2"
            \/ e = pre +:+ String c ("qcow2" +:+ String LF EmptyString)).
Proof.
  induction e as [|a e IH].
  - split; [done|]. intros (pre & c & _ & [H|H]); by destruct pre.
  - cbn [re_search_qcow2]. rewrite orb_true_iff, andb_true_iff, orb_true_iff.
    rewrite negb_true_iff, Ascii.eqb_neq, !String.eqb_eq, IH. split.
    + intros [[Ha [->| ->]]|(pre & c & Hc & [->| ->])].
      * exists EmptyString, a. split; [done|]. by left.
      * exists EmptyString, a. split; [done|]. by right.
      * exists (String a pre), c. split; [done|]. by left.
      * exists (String a pre), c. split; [done|]. by right.
    + intros (pre & c & Hc & H). destruct pre as [|a' pre].
      * left. rewrite !append_nil in H.
        destruct H as [H|H]; inversion H; subst; split; auto.
      * right. rewrite !append_cons in H. exists pre, c. split; [done|].
        destruct H as [H|H]; inversion H; subst; auto.
Qed.

Lemma join_cons sep p q rest :
  join sep (p :: q :: rest) = p +:+ sep +:+ join sep (q :: rest).
Proof. reflexivity. Qed.

(** [str.replace] replaces every occurrence in one pass from the left, and
    does not look at what it has put in: on a text cut into pieces at the
    occurrences of [old], the result is the pieces joined by [new], whether
    or not [new] contains [old]. *)
Theorem replace_joins_the_pieces old new parts :
  old <> EmptyString -> pieces_between old parts ->
  replace old new (join old parts) = join new parts.
Proof.
  intros Hold. induction parts as [|p [|q rest] IH]; intros H.
  - reflexivity.
  - by apply replace_absent.
  - destruct H as [Hp H]. rewrite !join_cons.
    rewrite replace_leftmost by done. by rewrite IH.
Qed.

End Text.

Section Logging.

(** A [trace] message reaches the log exactly when the launcher was started
    with [--trace]: [__main__] leaves the root logger at [DEBUG] (10), above
    [TRACE_LEVEL_NUM] (9), unless the flag lowers it to 1. *)
Theorem trace_needs_the_flag args_trace root m :
  manager_disable root < TRACE_LEVEL_NUM ->
  trace (main_logger args_trace root) m
  = if args_trace then [(TRACE_LEVEL_NUM, m)] else [].
Proof.
  intros H. unfold trace, isEnabledFor, main_logger, setLevel, TRACE_LEVEL_NUM in *.
  destruct args_trace; simpl; by rewrite (proj2 (Z.leb_gt _ _) H).
Qed.

End Logging.

(** * Instances of the further properties *)

Lemma silent_ticks_are_counted_witness :
  exists self' w',
    run_ticks stop_clears start_fresh [tick_silent; tick_silent; tick_silent] a_vm (no_calls ∅)
    = (Ok self', w')
    /\ self' = set_spins (spins a_vm + Z.of_nat 3) a_vm
    /\ since (no_calls ∅) w' = replicate 3 expect_call
    /\ fs w' = fs (no_calls ∅).
Proof.
  apply (silent_ticks_are_counted stop_clears start_fresh
           [tick_silent; tick_silent; tick_silent] a_vm (no_calls ∅)).
  - by repeat constructor.
  - simpl. lia.
Defined.

Lemma silent_ticks_then_timeout_witness :
  run_ticks stop_clears start_fresh ([tick_silent; tick_silent] ++ [tick_marker])
            (set_spins 299 a_vm) (no_calls ∅)
  = (Ok (start_fresh (stop_clears (set_spins 301 (set_spins 299 a_vm)))),
     after (no_calls ∅) (replicate 2 expect_call ++ [VM_stop; VM_start])).
Proof.
  apply (silent_ticks_then_timeout stop_clears start_fresh [tick_silent; tick_silent]
           tick_marker (set_spins 299 a_vm) (no_calls ∅)).
  - by repeat constructor.
  - reflexivity.
Defined.

Lemma login_after_silence_witness :
  run_ticks stop_clears start_fresh ([tick_silent; tick_silent] ++ [tick_marker])
            a_vm (no_calls ∅)
  = (Ok (set_running true (set_spins (spins a_vm + Z.of_nat 2) a_vm)),
     after (no_calls ∅) (replicate 2 expect_call ++ login_calls tick_marker a_vm)).
Proof.
  apply (login_after_silence stop_clears start_fresh [tick_silent; tick_silent]
           tick_marker a_vm (no_calls ∅)).
  - by repeat constructor.
  - simpl. lia.
  - reflexivity.
Defined.

Lemma garbled_output_raises_witness :
  bootstrap_spin stop_clears start_fresh tick_garbled a_vm (no_calls ∅)
  = (Raise UnicodeDecodeError, after (no_calls ∅) [expect_call])
  /\ run_ticks stop_clears start_fresh (tick_garbled :: [tick_marker]) a_vm (no_calls ∅)
     = (Raise UnicodeDecodeError, after (no_calls ∅) [expect_call]).
Proof.
  apply (garbled_output_raises stop_clears start_fresh tick_garbled [tick_marker] a_vm
           (no_calls ∅)).
  - simpl. lia.
  - reflexivity.
  - discriminate.
  - reflexivity.
Defined.

Lemma spin_assigns_spins_and_running_only_witness :
  (username (set_spins 1 a_vm), password (set_spins 1 a_vm),
   disk_image (set_spins 1 a_vm), hostname (set_spins 1 a_vm))
  = (username a_vm, password a_vm, disk_image a_vm, hostname a_vm)
  /\ (qemu_args (set_spins 1 a_vm), nic_type (set_spins 1 a_vm),
      num_nics (set_spins 1 a_vm), smbios (set_spins 1 a_vm))
     = (qemu_args a_vm, nic_type a_vm, num_nics a_vm, smbios a_vm)
  /\ (conn_mode (set_spins 1 a_vm), start_time (set_spins 1 a_vm))
     = (conn_mode a_vm, start_time a_vm)
  /\ (marker_matched tick_output = true -> spins (set_spins 1 a_vm) = spins a_vm)
  /\ (marker_matched tick_output = false -> running (set_spins 1 a_vm) = running a_vm).
Proof.
  apply (spin_assigns_spins_and_running_only stop_clears start_fresh tick_output a_vm
           (no_calls ∅) (set_spins 1 a_vm)
           (bootstrap_spin stop_clears start_fresh tick_output a_vm (no_calls ∅)).2).
  - simpl. lia.
  - reflexivity.
Defined.

Lemma spins_stay_within_301_witness :
  (spins (set_spins 301 (set_spins 300 a_vm)) <= 301
   /\ spins (set_spins 301 (set_spins 300 a_vm)) <= Z.max 1 (spins (set_spins 300 a_vm) + 1))
  /\ spins (set_spins 1 a_vm) <= 301.
Proof.
  split.
  - apply (proj1 (spins_stay_within_301 stop_clears start_fresh) tick_silent
                 (set_spins 300 a_vm) (no_calls ∅) _
                 (bootstrap_spin stop_clears start_fresh tick_silent (set_spins 300 a_vm)
                                 (no_calls ∅)).2).
    + simpl. lia.
    + reflexivity.
  - apply (proj2 (spins_stay_within_301 stop_clears start_fresh) [tick_silent; tick_output]
                 a_vm (no_calls ∅) _
                 (run_ticks stop_clears start_fresh [tick_silent; tick_output] a_vm
                            (no_calls ∅)).2).
    + reflexivity.
    + reflexivity.
    + simpl. lia.
Defined.

Lemma unreadable_template_stops_constructor_witness :
  __init__ builder_ok a_host "vr-edge1" "vrnetlab" "VR-netlab9" "tc"
           (no_calls files_without_template)
  = (Raise (match fs (no_calls files_without_template) !! "init.conf" with
            | None => FileNotFoundError "init.conf"
            | Some _ => IsADirectoryError "init.conf"
            end),
     after (no_calls files_without_template)
           [VM_init "vrnetlab" "VR-netlab9" "/vJunos-router-23.2R1.15.qcow2" 5120 "virtio"
                    "host,vmx=on" "4,sockets=1,cores=4,threads=1"]).
Proof.
  apply (unreadable_template_stops_constructor builder_ok a_host "vr-edge1" "vrnetlab"
           "VR-netlab9" "tc" (no_calls files_without_template)
           "/vJunos-router-23.2R1.15.qcow2").
  - reflexivity.
  - intros c. discriminate.
Defined.

Lemma make_config_status_is_not_raised_witness :
  exists w',
    __init__ builder_fails a_host "vr-edge1" "vrnetlab" "VR-netlab9" "tc"
             (no_calls files_with_user_config)
    = (Ok (constructed a_host "vr-edge1" "vrnetlab" "VR-netlab9" "tc"
                       "/vJunos-router-23.2R1.15.qcow2"), w')
    /\ fs w' !! "juniper.conf"
       = Some (File (artifact_of (fs (no_calls files_with_user_config))
                       (replace "{HOSTNAME}" "vr-edge1"
                                (universal_newlines "hostname {HOSTNAME};"))))
    /\ last (calls w')
       = Some (Subprocess_run ["./make-config.sh"; "juniper.conf"; "config.img"] false true
                 (builder_fails
                    (Some (File (artifact_of (fs (no_calls files_with_user_config))
                                   (replace "{HOSTNAME}" "vr-edge1"
                                            (universal_newlines "hostname {HOSTNAME};")))))).1)
    /\ fs w' !! "config.img"
       = match (builder_fails
                  (Some (File (artifact_of (fs (no_calls files_with_user_config))
                                 (replace "{HOSTNAME}" "vr-edge1"
                                          (universal_newlines "hostname {HOSTNAME};")))))).2 with
         | Some image => Some (File image)
         | None => fs (no_calls files_with_user_config) !! "config.img"
         end.
Proof.
  apply (make_config_status_is_not_raised builder_fails a_host "vr-edge1" "vrnetlab"
           "VR-netlab9" "tc" (no_calls files_with_user_config)
           "/vJunos-router-23.2R1.15.qcow2" "hostname {HOSTNAME};").
  - reflexivity.
  - reflexivity.
  - reflexivity.
  - discriminate.
Defined.



Lemma constructed_image_is_in_listing_witness :
  exists pre e post,
    listdir_root a_host = pre ++ e :: post
    /\ re_search_qcow2 e = true
    /\ Forall (fun e => re_search_qcow2 e = false) post
    /\ disk_image (constructed a_host "vr-edge1" "vrnetlab" "VR-netlab9" "tc"
                               "/vJunos-router-23.2R1.15.qcow2")
       = "/" +:+ e.
Proof.
  apply (proj1 (constructed_image_is_in_listing builder_ok a_host "vr-edge1" "vrnetlab"
                  "VR-netlab9" "tc" (no_calls fresh_files))
               _ first_run.2).
  reflexivity.
Defined.

Lemma replace_joins_the_pieces_witness :
  replace "{HOSTNAME}" "{HOSTNAME}-a" (join "{HOSTNAME}" ["host-name "; "; alias "; ";"])
  = join "{HOSTNAME}-a" ["host-name "; "; alias "; ";"].
Proof.
  apply (replace_joins_the_pieces "{HOSTNAME}" "{HOSTNAME}-a" ["host-name "; "; alias "; ";"]).
  - discriminate.
  - by vm_compute.
Defined.

Lemma trace_needs_the_flag_witness :
  trace (main_logger false root_logger) (Text "OUTPUT: Booting [/kernel]...") = []
  /\ trace (main_logger true root_logger) (Text "OUTPUT: Booting [/kernel]...")
     = [(TRACE_LEVEL_NUM, Text "OUTPUT: Booting [/kernel]...")].
Proof.
  split.
  - apply (trace_needs_the_flag false root_logger). reflexivity.
  - apply (trace_needs_the_flag true root_logger). reflexivity.
Defined.

